
(** * aci_query_script.py: a shallow embedding and its contract

    The script reads one JSON value from standard input, logs in to an APIC
    controller, issues one GET, and prints one flat JSON object.  The
    embedding follows the Python text function by function:

    - Python values that [json.loads] produces are the type [json]
      (numbers are the integers; floating-point numbers are outside the
      model; a [str] is a sequence of code points below 256);
    - exceptions are values of [exc] with a class and the text of [str(e)];
    - the effects of the script (network calls made, lines printed) are
      threaded through a state and exception monad [M];
    - everything the script does not own (what standard input parses to,
      which bases [urljoin] refuses, the CA bundle of the environment,
      what the network answers, the clock) is a field of [world].

    The texts of the interpreter's own exceptions follow CPython 3.12; no
    statement below depends on them beyond the prefixes the script adds. *)

From Stdlib Require Import String Ascii List ZArith Lia Bool.
From Stdlib Require Import DecimalString DecimalZ DecimalFacts DecimalPos.
Import ListNotations.
Local Open Scope string_scope.
Local Open Scope Z_scope.

(** ** Python values *)

#[local] Set Warnings "-register-all".

Inductive json : Type :=
| JNull
| JBool (b : bool)
| JInt (n : Z)
| JString (s : string)
| JArray (items : list json)
| JObject (members : list (string * json)).

(** The double quote, which a string literal cannot hold here. *)
Definition dquote : ascii := "034"%char.
Definition DQ : string := String dquote EmptyString.

(** Lookup in a [dict], kept as an association list in insertion order. *)
Fixpoint dict_get (k : string) (d : list (string * json)) : option json :=
  match d with
  | [] => None
  | (k', v) :: rest => if String.eqb k k' then Some v else dict_get k rest
  end.

Definition dict_has (k : string) (d : list (string * json)) : bool :=
  match dict_get k d with Some _ => true | None => false end.

(** [d[k] = v]: an existing key keeps its position, a new one goes last. *)
Fixpoint dict_set (k : string) (v : json) (d : list (string * json))
  : list (string * json) :=
  match d with
  | [] => [(k, v)]
  | (k', v') :: rest =>
      if String.eqb k k' then (k, v) :: rest else (k', v') :: dict_set k v rest
  end.

Definition type_name (v : json) : string :=
  match v with
  | JNull => "NoneType"
  | JBool _ => "bool"
  | JInt _ => "int"
  | JString _ => "str"
  | JArray _ => "list"
  | JObject _ => "dict"
  end.

(** ** Strings *)

Definition startswith (s p : string) : bool := String.prefix p s.

Fixpoint contains (s sub : string) : bool :=
  startswith s sub ||
  match s with
  | EmptyString => false
  | String _ rest => contains rest sub
  end.

(** [s.rstrip('/')] *)
Fixpoint rstrip_slash (s : string) : string :=
  match s with
  | EmptyString => EmptyString
  | String c rest =>
      match rstrip_slash rest with
      | EmptyString => if Ascii.eqb c "/" then EmptyString else String c EmptyString
      | r => String c r
      end
  end.

Fixpoint join (sep : string) (l : list string) : string :=
  match l with
  | [] => EmptyString
  | [x] => x
  | x :: rest => x ++ sep ++ join sep rest
  end.

(** Decimal text of an integer: [str(n)] and the number syntax of JSON. *)
Definition string_of_Z (z : Z) : string := NilZero.string_of_int (Z.to_int z).

Definition hex_digit (n : N) : ascii :=
  match n with
  | 0 => "0" | 1 => "1" | 2 => "2" | 3 => "3" | 4 => "4" | 5 => "5"
  | 6 => "6" | 7 => "7" | 8 => "8" | 9 => "9" | 10 => "a" | 11 => "b"
  | 12 => "c" | 13 => "d" | 14 => "e" | _ => "f"
  end%N%char.

Definition hex2 (c : ascii) : string :=
  let n := N_of_ascii c in
  String (hex_digit (n / 16)) (String (hex_digit (n mod 16)) EmptyString).

(** ** [repr] and [str] of a value *)

Definition repr_quote (s : string) : ascii :=
  if contains s "'" && negb (contains s DQ) then dquote else "'"%char.

Definition repr_printable (c : ascii) : bool :=
  let n := N_of_ascii c in
  ((32 <=? n) && (n <? 127) || (161 <=? n) && negb (n =? 173))%N.

Definition repr_char (q c : ascii) : string :=
  if Ascii.eqb c "\" then "\\"
  else if Ascii.eqb c q then String "\" (String q EmptyString)
  else if Ascii.eqb c "009" then "\t"
  else if Ascii.eqb c "010" then "\n"
  else if Ascii.eqb c "013" then "\r"
  else if repr_printable c then String c EmptyString
  else "\x" ++ hex2 c.

Fixpoint repr_chars (q : ascii) (s : string) : string :=
  match s with
  | EmptyString => EmptyString
  | String c rest => repr_char q c ++ repr_chars q rest
  end.

Definition repr_str (s : string) : string :=
  let q := repr_quote s in
  String q (repr_chars q s ++ String q EmptyString).

Fixpoint py_repr (v : json) : string :=
  match v with
  | JNull => "None"
  | JBool true => "True"
  | JBool false => "False"
  | JInt n => string_of_Z n
  | JString s => repr_str s
  | JArray items => "[" ++ join ", " (map py_repr items) ++ "]"
  | JObject members =>
      "{" ++ join ", "
               (map (fun kv => repr_str (fst kv) ++ ": " ++ py_repr (snd kv))
                    members) ++ "}"
  end.

(** [str(v)] *)
Definition py_str (v : json) : string :=
  match v with
  | JString s => s
  | _ => py_repr v
  end.

(** Truth value of [v] in [if v:]. *)
Definition truthy (v : json) : bool :=
  match v with
  | JNull => false
  | JBool b => b
  | JInt n => negb (n =? 0)
  | JString s => negb (String.eqb s EmptyString)
  | JArray items => match items with [] => false | _ => true end
  | JObject members => match members with [] => false | _ => true end
  end.

(** ** [json.dumps] with its default settings *)

Definition dumps_char (c : ascii) : string :=
  if Ascii.eqb c dquote then String "\" DQ
  else if Ascii.eqb c "\" then "\\"
  else if Ascii.eqb c "010" then "\n"
  else if Ascii.eqb c "013" then "\r"
  else if Ascii.eqb c "009" then "\t"
  else if Ascii.eqb c "012" then "\f"
  else if Ascii.eqb c "008" then "\b"
  else if ((32 <=? N_of_ascii c) && (N_of_ascii c <? 127))%N
       then String c EmptyString
  else "\u00" ++ hex2 c.

Fixpoint dumps_chars (s : string) : string :=
  match s with
  | EmptyString => EmptyString
  | String c rest => dumps_char c ++ dumps_chars rest
  end.

Definition dumps_str (s : string) : string :=
  DQ ++ dumps_chars s ++ DQ.

Fixpoint json_dumps (v : json) : string :=
  match v with
  | JNull => "null"
  | JBool true => "true"
  | JBool false => "false"
  | JInt n => string_of_Z n
  | JString s => dumps_str s
  | JArray items => "[" ++ join ", " (map json_dumps items) ++ "]"
  | JObject members =>
      "{" ++ join ", "
               (map (fun kv => dumps_str (fst kv) ++ ": " ++ json_dumps (snd kv))
                    members) ++ "}"
  end.

(** ** Exceptions *)

(** The exception classes the script can meet.  [HTTPError],
    [ConnectionError], [ReadTimeout] and [RequestsJSONDecodeError] are
    classes of [requests.exceptions]; [RequestsJSONDecodeError] is
    [requests.exceptions.JSONDecodeError], which [Response.json] raises
    since requests 2.27 and which derives from both
    [requests.exceptions.RequestException] and [json.JSONDecodeError].
    Every class here derives from [Exception]. *)
Inductive exc_class : Type :=
| ACIQueryError
| RequestException
| HTTPError
| ConnectionError
| ReadTimeout
| RequestsJSONDecodeError
| JSONDecodeError
| ValueError
| TypeError
| AttributeError
| KeyError
| IndexError
| Exception.

Definition exc_class_eqb (a b : exc_class) : bool :=
  match a, b with
  | ACIQueryError, ACIQueryError | RequestException, RequestException
  | HTTPError, HTTPError | ConnectionError, ConnectionError
  | ReadTimeout, ReadTimeout
  | RequestsJSONDecodeError, RequestsJSONDecodeError
  | JSONDecodeError, JSONDecodeError | ValueError, ValueError
  | TypeError, TypeError | AttributeError, AttributeError
  | KeyError, KeyError | IndexError, IndexError | Exception, Exception => true
  | _, _ => false
  end.

(** [issubclass c p] *)
Definition issubclass (c p : exc_class) : bool :=
  exc_class_eqb c p ||
  match p with
  | Exception => true
  | RequestException =>
      match c with
      | HTTPError | ConnectionError | ReadTimeout | RequestsJSONDecodeError => true
      | _ => false
      end
  | JSONDecodeError =>
      match c with RequestsJSONDecodeError => true | _ => false end
  | ValueError =>
      match c with JSONDecodeError | RequestsJSONDecodeError => true | _ => false end
  | _ => false
  end.

(** An exception: its class and the text [str(e)]. *)
Record exc : Type := mkExc { exc_cls : exc_class; exc_str : string }.

Definition isinstance (e : exc) (p : exc_class) : bool :=
  issubclass (exc_cls e) p.

Inductive result (A : Type) : Type :=
| Ok (a : A)
| Raise (e : exc).
Arguments Ok {A} a.
Arguments Raise {A} e.

Definition rbind {A B} (r : result A) (k : A -> result B) : result B :=
  match r with
  | Ok a => k a
  | Raise e => Raise e
  end.

Declare Scope py_scope.
Delimit Scope py_scope with py.
Notation "x <-- r ;; k" := (rbind r (fun x => k))
  (at level 61, r at next level, right associativity) : py_scope.
Notation "r ;;; k" := (rbind r (fun _ => k))
  (at level 61, right associativity) : py_scope.
Local Open Scope py_scope.

(** ** Operations of the interpreter on values *)

Definition no_attribute (v : json) (attr : string) : exc :=
  mkExc AttributeError
        ("'" ++ type_name v ++ "' object has no attribute '" ++ attr ++ "'").

(** [key in v] *)
Definition py_in (key : string) (v : json) : result bool :=
  match v with
  | JObject members => Ok (dict_has key members)
  | JArray items =>
      Ok (existsb (fun x => match x with
                            | JString s => String.eqb s key
                            | _ => false
                            end) items)
  | JString s => Ok (contains s key)
  | _ => Raise (mkExc TypeError
                      ("argument of type '" ++ type_name v ++ "' is not iterable"))
  end.

(** [v[key]] for a string key *)
Definition py_getitem (v : json) (key : string) : result json :=
  match v with
  | JObject members =>
      match dict_get key members with
      | Some x => Ok x
      | None => Raise (mkExc KeyError (repr_str key))
      end
  | JArray _ =>
      Raise (mkExc TypeError "list indices must be integers or slices, not str")
  | JString _ =>
      Raise (mkExc TypeError "string indices must be integers, not 'str'")
  | _ => Raise (mkExc TypeError
                      ("'" ++ type_name v ++ "' object is not subscriptable"))
  end.

(** [v[0]] *)
Definition py_getitem0 (v : json) : result json :=
  match v with
  | JArray (x :: _) => Ok x
  | JArray [] => Raise (mkExc IndexError "list index out of range")
  | JString (String c _) => Ok (JString (String c EmptyString))
  | JString EmptyString => Raise (mkExc IndexError "string index out of range")
  | JObject _ => Raise (mkExc KeyError "0")
  | _ => Raise (mkExc TypeError
                      ("'" ++ type_name v ++ "' object is not subscriptable"))
  end.

(** [len(v)] *)
Definition py_len (v : json) : result Z :=
  match v with
  | JArray items => Ok (Z.of_nat (List.length items))
  | JString s => Ok (Z.of_nat (String.length s))
  | JObject members => Ok (Z.of_nat (List.length members))
  | _ => Raise (mkExc TypeError
                      ("object of type '" ++ type_name v ++ "' has no len()"))
  end.

(** [v.get(key, default)] *)
Definition py_get (v : json) (key : string) (default : json) : result json :=
  match v with
  | JObject members =>
      Ok (match dict_get key members with Some x => x | None => default end)
  | _ => Raise (no_attribute v "get")
  end.

(** [v.rstrip('/')] *)
Definition py_rstrip (v : json) : result string :=
  match v with
  | JString s => Ok (rstrip_slash s)
  | _ => Raise (no_attribute v "rstrip")
  end.

(** [v.startswith(p)] *)
Definition py_startswith (v : json) (p : string) : result bool :=
  match v with
  | JString s => Ok (startswith s p)
  | _ => Raise (no_attribute v "startswith")
  end.

(** [int(s)] for a string: blanks around, an optional sign, decimal digits
    with single underscores between them, and no more digits than the
    interpreter allows.  The blanks [int] skips are the code points 9 to
    13 and 32, and 133 and 160 outside ASCII. *)
Definition is_space (c : ascii) : bool :=
  let n := N_of_ascii c in
  ((9 <=? n) && (n <=? 13) || (n =? 32) || (n =? 133) || (n =? 160))%N.

Definition digit_value (c : ascii) : option Z :=
  let n := N_of_ascii c in
  if ((48 <=? n) && (n <=? 57))%N then Some (Z.of_N n - 48) else None.

Fixpoint lstrip (s : string) : string :=
  match s with
  | String c rest => if is_space c then lstrip rest else s
  | EmptyString => EmptyString
  end.

Fixpoint all_space (s : string) : bool :=
  match s with
  | String c rest => is_space c && all_space rest
  | EmptyString => true
  end.

(** The run of digits at the head of [s]: its value added to [acc], the
    number of its digits added to [count], and what follows it; [None]
    when an underscore is not followed by a digit. *)
Fixpoint int_digits (acc : Z) (count : N) (s : string)
  : option (Z * N * string) :=
  match s with
  | EmptyString => Some (acc, count, EmptyString)
  | String c rest =>
      match digit_value c with
      | Some d => int_digits (10 * acc + d) (count + 1) rest
      | None =>
          if Ascii.eqb c "_" then
            match rest with
            | String c' rest' =>
                match digit_value c' with
                | Some d => int_digits (10 * acc + d) (count + 1) rest'
                | None => None
                end
            | EmptyString => None
            end
          else Some (acc, count, s)
      end
  end.

(** The default of [sys.get_int_max_str_digits()]. *)
Definition max_str_digits : N := 4300.

(** What [int] makes of a text. *)
Inductive int_text : Type :=
| IntValue (n : Z)
| IntInvalid
| IntTooLong (digits : N).

Definition int_unsigned (s : string) : int_text :=
  match s with
  | String c _ =>
      match digit_value c with
      | Some _ =>
          match int_digits 0 0 s with
          | Some (n, count, rest) =>
              if (max_str_digits <? count)%N then IntTooLong count
              else if all_space rest then IntValue n
              else IntInvalid
          | None => IntInvalid
          end
      | None => IntInvalid
      end
  | EmptyString => IntInvalid
  end.

Definition int_negate (t : int_text) : int_text :=
  match t with
  | IntValue n => IntValue (- n)
  | other => other
  end.

Definition int_of_str (s : string) : int_text :=
  match lstrip s with
  | String c rest =>
      if Ascii.eqb c "-" then int_negate (int_unsigned rest)
      else if Ascii.eqb c "+" then int_unsigned rest
      else int_unsigned (String c rest)
  | EmptyString => IntInvalid
  end.

(** [int(v)] *)
Definition py_int (v : json) : result Z :=
  match v with
  | JInt n => Ok n
  | JBool b => Ok (if b then 1 else 0)
  | JString s =>
      match int_of_str s with
      | IntValue n => Ok n
      | IntInvalid =>
          Raise (mkExc ValueError
                   ("invalid literal for int() with base 10: "
                      ++ substring 0 200 (repr_str s)))
      | IntTooLong digits =>
          Raise (mkExc ValueError
                   ("Exceeds the limit (4300 digits) for integer string conversion: value has "
                      ++ string_of_Z (Z.of_N digits)
                      ++ " digits; use sys.set_int_max_str_digits() to increase the limit"))
      end
  | _ => Raise (mkExc TypeError
           ("int() argument must be a string, a bytes-like object or a real number, not '"
              ++ type_name v ++ "'"))
  end.

(** ** The world around the script *)

Inductive http_method : Type := GET | POST.

(** The URL that [urljoin(base, ref)] returns for a base it accepts, kept
    unevaluated: a request is identified by the base and the reference
    resolved against it.  Whether [urljoin] accepts the base is asked of
    the world, see [py_urljoin]. *)
Record url : Type := mkUrl { url_base : string; url_ref : string }.

Definition urljoin (base ref : string) : url := mkUrl base ref.

(** One call of [session.post] or [session.get]: the keywords the caller
    passed ([None] for a keyword left out), and the [verify] attribute and
    the headers of the session the call is made on.  The library takes the
    time limit of a call from its [timeout] keyword alone; what it makes
    of [verify] is [certificates_verified] below.  A call is an entry into
    the library: whether anything leaves the machine is the library's
    affair (it refuses a URL without a scheme, for one). *)
Record request : Type := mkRequest {
  req_method : http_method;
  req_url : url;
  req_json : option json;
  req_params : option json;
  req_timeout : option Z;
  req_verify : bool;
  req_headers : list (string * string)
}.

(** A response: its status, the text of the [HTTPError] that
    [raise_for_status] raises for it, and what [response.json()] does. *)
Record response : Type := mkResponse {
  status_code : Z;
  http_error : string;
  body_json : result json
}.

(** [url_error base] is the text of the [ValueError] that
    [urllib.parse.urljoin] raises for [base] (a host with an unbalanced
    bracket, for one), when it refuses it; [ca_bundle] is the value of
    [REQUESTS_CA_BUNDLE] or [CURL_CA_BUNDLE], when one is set. *)
Record world : Type := mkWorld {
  stdin_json : result json;                 (* json.loads(sys.stdin.read()) *)
  url_error : string -> option string;      (* urljoin(base, ...) *)
  ca_bundle : option string;                (* the environment *)
  network : request -> result response;     (* session.post / session.get *)
  now : Z                                   (* int(time.time()) *)
}.

(** Lines 30 and 70: [urljoin(base, ref)].  The references of the script
    start with [/api] and are always accepted; the base may be refused. *)
Definition py_urljoin (w : world) (base ref : string) : result url :=
  match url_error w base with
  | Some text => Raise (mkExc ValueError text)
  | None => Ok (urljoin base ref)
  end.

(** What comes of the call [r]: the answer of the network, for a call
    that can be made.  For a base that [urljoin] refuses no call is made;
    [transport] is then the error of [urljoin], so that a statement about
    an answered call is a statement about a URL that was formed. *)
Definition transport (w : world) (r : request) : result response :=
  match url_error w (url_base (req_url r)) with
  | Some text => Raise (mkExc ValueError text)
  | None => network w r
  end.

(** Whether the library checks the certificate of the server on the call
    [r]: a call that passes no [verify] keyword takes the CA bundle of the
    environment when one is set, and the [verify] of its session
    otherwise. *)
Definition certificates_verified (w : world) (r : request) : bool :=
  match ca_bundle w with
  | Some _ => true
  | None => req_verify r
  end.

(** ** Effects: network calls made and lines printed *)

Record state : Type := mkState {
  net_calls : list request;
  printed : list string
}.

Definition initial : state := mkState [] [].

Definition M (A : Type) : Type := state -> result A * state.

Definition ret {A} (a : A) : M A := fun st => (Ok a, st).

Definition raise {A} (e : exc) : M A := fun st => (Raise e, st).

Definition bind {A B} (m : M A) (k : A -> M B) : M B :=
  fun st =>
    match m st with
    | (Ok a, st') => k a st'
    | (Raise e, st') => (Raise e, st')
    end.

Definition lift {A} (r : result A) : M A := fun st => (r, st).

(** [try: body except ...]: [handler e] is the first clause that matches
    [e], if there is one. *)
Definition try_except {A} (body : M A) (handler : exc -> option (M A)) : M A :=
  fun st =>
    match body st with
    | (Ok a, st') => (Ok a, st')
    | (Raise e, st') =>
        match handler e with
        | Some h => h st'
        | None => (Raise e, st')
        end
    end.

Notation "x <- m ;; k" := (bind m (fun x => k))
  (at level 61, m at next level, right associativity) : py_scope.
Notation "m ;; k" := (bind m (fun _ => k))
  (at level 61, right associativity) : py_scope.

Definition print (line : string) : M unit :=
  fun st => (Ok tt, mkState (net_calls st) (printed st ++ [line])).

Definition send (w : world) (r : request) : M response :=
  fun st => (network w r, mkState (net_calls st ++ [r]) (printed st)).

(** ** [requests.Session] *)

Record Session : Type := mkSession {
  verify : bool;
  timeout : option Z;              (* the attribute [session.timeout] *)
  headers : list (string * string)
}.

(** [requests.Session()]; the library's default headers are left out. *)
Definition new_Session : Session := mkSession true None [].

Fixpoint headers_update (k v : string) (h : list (string * string))
  : list (string * string) :=
  match h with
  | [] => [(k, v)]
  | (k', v') :: rest =>
      if String.eqb k k' then (k, v) :: rest
      else (k', v') :: headers_update k v rest
  end.

(** [session.verify = b] *)
Definition set_verify (b : bool) (s : Session) : Session :=
  mkSession b (timeout s) (headers s).

(** [session.timeout = t] *)
Definition set_timeout (t : Z) (s : Session) : Session :=
  mkSession (verify s) (Some t) (headers s).

(** [session.headers.update({k: v})] *)
Definition update_headers (k v : string) (s : Session) : Session :=
  mkSession (verify s) (timeout s) (headers_update k v (headers s)).

(** [session.post(url, json=payload)] *)
Definition session_post (w : world) (s : Session) (u : url) (payload : json)
  : M response :=
  send w (mkRequest POST u (Some payload) None None (verify s) (headers s)).

(** [session.get(url, params=params)] *)
Definition session_get (w : world) (s : Session) (u : url) (params : json)
  : M response :=
  send w (mkRequest GET u None (Some params) None (verify s) (headers s)).

(** [response.raise_for_status()] *)
Definition raise_for_status (r : response) : M unit :=
  if (400 <=? status_code r) && (status_code r <? 600)
  then raise (mkExc HTTPError (http_error r))
  else ret tt.

(** ** The script *)

Definition no_token : exc :=
  mkExc ACIQueryError "Authentication failed - no token received".

(** Lines 31-38: the JSON body of the login request. *)
Definition aaaUser_payload (username password : json) : json :=
  JObject [("aaaUser",
            JObject [("attributes",
                      JObject [("name", username); ("pwd", password)])])].

(** Lines 22-57. *)
Definition authenticate_aci (w : world) (apic_url : string)
    (username password : json) (timeout : Z) : M Session :=
  let session := new_Session in
  let session := set_verify false session in
  let session := set_timeout timeout session in
  login_url <- lift (py_urljoin w apic_url "/api/aaaLogin.json") ;;
  let login_payload := aaaUser_payload username password in
  try_except
    (response <- session_post w session login_url login_payload ;;
     raise_for_status response ;;
     login_data <- lift (body_json response) ;;
     present <- lift (py_in "imdata" login_data) ;;
     nonempty <- (if present
                  then imdata <- lift (py_getitem login_data "imdata") ;;
                       n <- lift (py_len imdata) ;;
                       ret (0 <? n)
                  else ret false) ;;
     if (nonempty : bool) then
       imdata <- lift (py_getitem login_data "imdata") ;;
       first <- lift (py_getitem0 imdata) ;;
       aaaLogin <- lift (py_get first "aaaLogin" (JObject [])) ;;
       attributes <- lift (py_get aaaLogin "attributes" (JObject [])) ;;
       token <- lift (py_get attributes "token" JNull) ;;
       if truthy token then
         ret (update_headers "Cookie" ("APIC-cookie=" ++ py_str token) session)
       else raise no_token
     else raise no_token)
    (fun e =>
       if isinstance e RequestException then
         Some (raise (mkExc ACIQueryError
                        ("Authentication request failed: " ++ exc_str e)))
       else if isinstance e JSONDecodeError then
         Some (raise (mkExc ACIQueryError
                        ("Invalid JSON response during authentication: "
                           ++ exc_str e)))
       else None).

(** Lines 64-68, for an [api_path] that is a [str]. *)
Definition normalize_api_path (api_path : string) : string :=
  if negb (startswith api_path "/api") then
    if startswith api_path "/" then "/api" ++ api_path
    else "/api/" ++ api_path
  else api_path.

(** Lines 59-81.  [api_path.startswith] is looked up before the [try]:
    an [api_path] that is not a [str] raises [AttributeError] there; so
    is [urljoin] called, as in [authenticate_aci]. *)
Definition query_aci_api (w : world) (session : Session) (apic_url : string)
    (api_path params : json) : M json :=
  match api_path with
  | JString p =>
      let api_path := normalize_api_path p in
      query_url <- lift (py_urljoin w apic_url api_path) ;;
      try_except
        (response <- session_get w session query_url params ;;
         raise_for_status response ;;
         lift (body_json response))
        (fun e =>
           if isinstance e RequestException then
             Some (raise (mkExc ACIQueryError
                            ("API query failed: " ++ exc_str e)))
           else if isinstance e JSONDecodeError then
             Some (raise (mkExc ACIQueryError
                            ("Invalid JSON response from API: " ++ exc_str e)))
           else None)
  | _ => raise (no_attribute api_path "startswith")
  end.

Definition required_params : list string :=
  ["apic_url"; "username"; "password"; "api_path"].

(** Lines 92-95. *)
Fixpoint check_required (input_data : json) (params : list string)
  : result unit :=
  match params with
  | [] => Ok tt
  | param :: rest =>
      present <-- py_in param input_data ;;
      if (present : bool) then check_required input_data rest
      else Raise (mkExc ACIQueryError
                    ("Missing required parameter: " ++ param))
  end.

(** The local variables of [main] after line 104. *)
Record args : Type := mkArgs {
  arg_apic_url : string;
  arg_username : json;
  arg_password : json;
  arg_api_path : json;
  arg_timeout : Z;
  arg_query_params : json
}.

(** Lines 92-104: validation and reading of the input, which touch neither
    the network nor standard output. *)
Definition read_args (input_data : json) : result args :=
  check_required input_data required_params ;;;
  apic_url <-- py_getitem input_data "apic_url" ;;
  apic_url <-- py_rstrip apic_url ;;
  username <-- py_getitem input_data "username" ;;
  password <-- py_getitem input_data "password" ;;
  api_path <-- py_getitem input_data "api_path" ;;
  timeout <-- py_get input_data "timeout" (JInt 30) ;;
  timeout <-- py_int timeout ;;
  query_params <-- py_get input_data "query_params" (JObject []) ;;
  Ok (mkArgs apic_url username password api_path timeout query_params).

(** Lines 114-125: the envelope of a successful run. *)
Definition success_output (w : world)
  : json -> result (list (string * json)) := fun result =>
  let output := [("json_data", JString (json_dumps result));
                 ("status", JString "success");
                 ("timestamp", JString (string_of_Z (now w)))] in
  has_imdata <-- py_in "imdata" result ;;
  output <-- (if (has_imdata : bool)
              then imdata <-- py_getitem result "imdata" ;;
                   n <-- py_len imdata ;;
                   Ok (dict_set "record_count" (JString (string_of_Z n)) output)
              else Ok output) ;;
  has_total <-- py_in "totalCount" result ;;
  if (has_total : bool)
  then totalCount <-- py_getitem result "totalCount" ;;
       Ok (dict_set "total_count" (JString (py_str totalCount)) output)
  else Ok output.

(** Lines 88-110: from standard input to the parsed answer of the query. *)
Definition main_fetch (w : world) : M json :=
  input_data <- lift (stdin_json w) ;;
  a <- lift (read_args input_data) ;;
  session <- authenticate_aci w (arg_apic_url a) (arg_username a)
               (arg_password a) (arg_timeout a) ;;
  query_aci_api w session (arg_apic_url a) (arg_api_path a)
    (arg_query_params a).

(** Lines 88-128: the body of the [try] of [main]. *)
Definition main_try (w : world) : M unit :=
  result <- main_fetch w ;;
  output <- lift (success_output w result) ;;
  print (json_dumps (JObject output)).

(** Lines 130-159: the envelope of a failed run. *)
Definition error_output (w : world) (error_message : string)
  : list (string * json) :=
  [("json_data", JString "{}");
   ("status", JString "error");
   ("error_message", JString error_message);
   ("timestamp", JString (string_of_Z (now w)))].

(** The text the three [except] clauses of [main] give to [e]. *)
Definition main_error_message (e : exc) : string :=
  if isinstance e ACIQueryError then exc_str e
  else if isinstance e JSONDecodeError then "Invalid input JSON: " ++ exc_str e
  else "Unexpected error: " ++ exc_str e.

(** What a run leaves behind. *)
Record run : Type := mkRun {
  stdout : list string;
  exit_code : Z;
  calls : list request
}.

(** Lines 83-159.  Leaving [main] by its end ends the process with code 0;
    each [except] clause prints and calls [sys.exit(1)]. *)
Definition main (w : world) : run :=
  match main_try w initial with
  | (Ok _, st) => mkRun (printed st) 0 (net_calls st)
  | (Raise e, st) =>
      match print (json_dumps (JObject (error_output w (main_error_message e)))) st with
      | (_, st') => mkRun (printed st') 1 (net_calls st')
      end
  end.

(** ** Reading JSON text back

    A reader for the JSON text of the values above, used to state what a
    caller finds on standard output.  It accepts the syntax of RFC 8259
    restricted to integers in canonical form and to code points below 256,
    and builds objects the way [json.loads] does: a repeated key keeps its
    first position and takes its last value. *)

Definition is_json_ws (c : ascii) : bool :=
  Ascii.eqb c " " || Ascii.eqb c "009" || Ascii.eqb c "010" || Ascii.eqb c "013".

Fixpoint skip_ws (s : string) : string :=
  match s with
  | String c rest => if is_json_ws c then skip_ws rest else s
  | EmptyString => EmptyString
  end.

Definition hex_value (c : ascii) : option N :=
  let n := N_of_ascii c in
  (if (48 <=? n) && (n <=? 57) then Some (n - 48)
   else if (97 <=? n) && (n <=? 102) then Some (n - 87)
   else if (65 <=? n) && (n <=? 70) then Some (n - 55)
   else None)%N.

(** The character written [\uh1h2h3h4], when it lies below 256. *)
Definition unescape_u (h1 h2 h3 h4 : ascii) : option ascii :=
  match hex_value h1, hex_value h2, hex_value h3, hex_value h4 with
  | Some a, Some b, Some c, Some d =>
      if ((a =? 0) && (b =? 0))%N then Some (ascii_of_N (16 * c + d)) else None
  | _, _, _, _ => None
  end.

(** The character written [\e] for a one-letter escape. *)
Definition unescape (e : ascii) : option ascii :=
  if Ascii.eqb e dquote then Some dquote
  else if Ascii.eqb e "\" then Some "\"%char
  else if Ascii.eqb e "/" then Some "/"%char
  else if Ascii.eqb e "b" then Some "008"%char
  else if Ascii.eqb e "f" then Some "012"%char
  else if Ascii.eqb e "n" then Some "010"%char
  else if Ascii.eqb e "r" then Some "013"%char
  else if Ascii.eqb e "t" then Some "009"%char
  else None.

Definition cons_char (c : ascii) (r : option (string * string))
  : option (string * string) :=
  match r with
  | Some (s, rest) => Some (String c s, rest)
  | None => None
  end.

(** The characters of a string literal, after its opening quote. *)
Fixpoint parse_chars (s : string) : option (string * string) :=
  match s with
  | EmptyString => None
  | String c rest =>
      if Ascii.eqb c dquote then Some (EmptyString, rest)
      else if Ascii.eqb c "\" then
        match rest with
        | EmptyString => None
        | String e rest1 =>
            if Ascii.eqb e "u" then
              match rest1 with
              | String h1 (String h2 (String h3 (String h4 rest2))) =>
                  match unescape_u h1 h2 h3 h4 with
                  | Some ch => cons_char ch (parse_chars rest2)
                  | None => None
                  end
              | _ => None
              end
            else
              match unescape e with
              | Some ch => cons_char ch (parse_chars rest1)
              | None => None
              end
        end
      else if (N_of_ascii c <? 32)%N then None
      else cons_char c (parse_chars rest)
  end.

Definition is_num_char (c : ascii) : bool :=
  Ascii.eqb c "-" || ((48 <=? N_of_ascii c) && (N_of_ascii c <=? 57))%N.

Fixpoint span_num (s : string) : string * string :=
  match s with
  | String c rest =>
      if is_num_char c
      then let (tok, rest') := span_num rest in (String c tok, rest')
      else (EmptyString, s)
  | EmptyString => (EmptyString, EmptyString)
  end.

(** A number that goes on with a fraction or an exponent is not an
    integer. *)
Definition starts_fraction (s : string) : bool :=
  match s with
  | String c _ => Ascii.eqb c "." || Ascii.eqb c "e" || Ascii.eqb c "E"
  | EmptyString => false
  end.

Definition parse_int (s : string) : option (json * string) :=
  let (tok, rest) := span_num s in
  match NilZero.int_of_string tok with
  | Some d =>
      let z := Z.of_int d in
      if String.eqb (string_of_Z z) tok && negb (starts_fraction rest)
      then Some (JInt z, rest)
      else None
  | None => None
  end.

(** [s] without its prefix [p], when it has it. *)
Fixpoint strip_prefix (p s : string) : option string :=
  match p with
  | EmptyString => Some s
  | String a p' =>
      match s with
      | String b s' => if Ascii.eqb a b then strip_prefix p' s' else None
      | EmptyString => None
      end
  end.

Definition expect (word : string) (v : json) (s : string)
  : option (json * string) :=
  match strip_prefix word s with
  | Some rest => Some (v, rest)
  | None => None
  end.

(** [dict(pairs)] *)
Definition dict_of_pairs (pairs : list (string * json)) : list (string * json) :=
  fold_left (fun d kv => dict_set (fst kv) (snd kv) d) pairs [].

Fixpoint parse_value (fuel : nat) (s : string) : option (json * string) :=
  match fuel with
  | O => None
  | S fuel' =>
      match skip_ws s with
      | EmptyString => None
      | String c rest =>
          if Ascii.eqb c "n" then expect "ull" JNull rest
          else if Ascii.eqb c "t" then expect "rue" (JBool true) rest
          else if Ascii.eqb c "f" then expect "alse" (JBool false) rest
          else if Ascii.eqb c dquote then
            match parse_chars rest with
            | Some (str, rest') => Some (JString str, rest')
            | None => None
            end
          else if Ascii.eqb c "[" then
            match skip_ws rest with
            | EmptyString => None
            | String c' rest' =>
                if Ascii.eqb c' "]" then Some (JArray [], rest')
                else
                  match parse_items fuel' rest with
                  | Some (items, rest'') => Some (JArray items, rest'')
                  | None => None
                  end
            end
          else if Ascii.eqb c "{" then
            match skip_ws rest with
            | EmptyString => None
            | String c' rest' =>
                if Ascii.eqb c' "}" then Some (JObject [], rest')
                else
                  match parse_members fuel' rest with
                  | Some (pairs, rest'') =>
                      Some (JObject (dict_of_pairs pairs), rest'')
                  | None => None
                  end
            end
          else parse_int (String c rest)
      end
  end

with parse_items (fuel : nat) (s : string) : option (list json * string) :=
  match fuel with
  | O => None
  | S fuel' =>
      match parse_value fuel' s with
      | None => None
      | Some (v, rest) =>
          match skip_ws rest with
          | EmptyString => None
          | String c rest' =>
              if Ascii.eqb c "," then
                match parse_items fuel' rest' with
                | Some (items, rest'') => Some (v :: items, rest'')
                | None => None
                end
              else if Ascii.eqb c "]" then Some ([v], rest')
              else None
          end
      end
  end

with parse_members (fuel : nat) (s : string)
  : option (list (string * json) * string) :=
  match fuel with
  | O => None
  | S fuel' =>
      match skip_ws s with
      | String c rest =>
          if Ascii.eqb c dquote then
            match parse_chars rest with
            | None => None
            | Some (key, rest1) =>
                match skip_ws rest1 with
                | String c1 rest2 =>
                    if Ascii.eqb c1 ":" then
                      match parse_value fuel' rest2 with
                      | None => None
                      | Some (v, rest3) =>
                          match skip_ws rest3 with
                          | EmptyString => None
                          | String c3 rest4 =>
                              if Ascii.eqb c3 "," then
                                match parse_members fuel' rest4 with
                                | Some (pairs, rest5) =>
                                    Some ((key, v) :: pairs, rest5)
                                | None => None
                                end
                              else if Ascii.eqb c3 "}" then
                                Some ([(key, v)], rest4)
                              else None
                          end
                      end
                    else None
                | EmptyString => None
                end
            end
          else None
      | EmptyString => None
      end
  end.

(** [json.loads(s)] on the fragment. *)
Definition json_loads (s : string) : result json :=
  match parse_value (2 * String.length s + 1) s with
  | Some (v, rest) =>
      match skip_ws rest with
      | EmptyString => Ok v
      | _ => Raise (mkExc JSONDecodeError "Extra data")
      end
  | None => Raise (mkExc JSONDecodeError "Expecting value")
  end.

(** Every [dict] inside [v] has distinct keys, as every Python [dict] has. *)
Fixpoint distinct (l : list string) : bool :=
  match l with
  | [] => true
  | x :: rest => negb (existsb (String.eqb x) rest) && distinct rest
  end.

Fixpoint keys_unique (v : json) : bool :=
  match v with
  | JArray items => forallb keys_unique items
  | JObject members =>
      distinct (map fst members)
      && forallb (fun kv => keys_unique (snd kv)) members
  | _ => true
  end.

(** Fuel that is enough to read the text of [v] back. *)
Fixpoint need (v : json) : nat :=
  match v with
  | JArray items => S (list_sum (map (fun x => S (need x)) items))
  | JObject members => S (list_sum (map (fun kv => S (need (snd kv))) members))
  | _ => 1%nat
  end.

(** What may follow a value in JSON text. *)
Definition delimited (s : string) : bool :=
  match s with
  | EmptyString => true
  | String c _ => Ascii.eqb c "," || Ascii.eqb c "]" || Ascii.eqb c "}"
  end.

(** ** Definitions used by the proofs *)

(** Every character of [s] may occur in an integer. *)
Fixpoint all_num (s : string) : bool :=
  match s with
  | EmptyString => true
  | String c rest => is_num_char c && all_num rest
  end.

(** The first character of the text of a value. *)
Definition value_start (c : ascii) : bool :=
  is_num_char c || Ascii.eqb c "n" || Ascii.eqb c "t" || Ascii.eqb c "f"
  || Ascii.eqb c dquote || Ascii.eqb c "[" || Ascii.eqb c "{".

(** [reads v]: the text of [v], followed by a delimiter, reads back as [v]
    with any fuel from [need v] on. *)
Definition reads (v : json) : Prop :=
  forall fuel rest,
    (need v <= fuel)%nat -> keys_unique v = true -> delimited rest = true ->
    parse_value fuel (json_dumps v ++ rest) = Some (v, rest).

(** ** An induction principle that reaches inside lists and dicts *)

Section json_induction.
Variable P : json -> Prop.
Hypothesis HNull : P JNull.
Hypothesis HBool : forall b, P (JBool b).
Hypothesis HInt : forall n, P (JInt n).
Hypothesis HString : forall s, P (JString s).
Hypothesis HArray : forall items, Forall P items -> P (JArray items).
Hypothesis HObject :
  forall members, Forall (fun kv => P (snd kv)) members -> P (JObject members).

Fixpoint json_nested_ind (v : json) : P v :=
  match v with
  | JNull => HNull
  | JBool b => HBool b
  | JInt n => HInt n
  | JString s => HString s
  | JArray items =>
      HArray items
        ((fix go (l : list json) : Forall P l :=
            match l with
            | [] => Forall_nil P
            | x :: rest => Forall_cons x (json_nested_ind x) (go rest)
            end) items)
  | JObject members =>
      HObject members
        ((fix go (l : list (string * json))
            : Forall (fun kv => P (snd kv)) l :=
            match l with
            | [] => Forall_nil _
            | kv :: rest =>
                Forall_cons kv (json_nested_ind (snd kv)) (go rest)
            end) members)
  end.
End json_induction.

(** ** Vocabulary of the contract *)

(** The value at [imdata[0].aaaLogin.attributes.token] of a login answer,
    when every step of that path is there: [imdata] a sequence whose
    first element is an object, [aaaLogin] and [attributes] objects. *)
Definition login_token (login_data : json) : option json :=
  match login_data with
  | JObject o =>
      match dict_get "imdata" o with
      | Some (JArray (JObject first :: _)) =>
          match dict_get "aaaLogin" first with
          | Some (JObject a) =>
              match dict_get "attributes" a with
              | Some (JObject b) => dict_get "token" b
              | _ => None
              end
          | _ => None
          end
      | _ => None
      end
  | _ => None
  end.

(** [key] is an element of the list [items], as [key in items] tells. *)
Definition has_item (key : string) (items : list json) : bool :=
  existsb (fun x => match x with
                    | JString s => String.eqb s key
                    | _ => false
                    end) items.

(** The login answers on which lines 45-46 raise nothing: the tests
    ['imdata' in login_data] and [len(login_data['imdata']) > 0] and, for
    a non-empty [imdata], the three [get] under its first element can all
    be evaluated.  That is: a list or a string in which [imdata] does not
    occur; an object without [imdata], or with an empty list, string or
    object for it, or with a list whose first element is an object in
    which [aaaLogin] and then [attributes] are missing or objects. *)
Definition traversal_raises_nothing (login_data : json) : bool :=
  match login_data with
  | JObject o =>
      match dict_get "imdata" o with
      | None => true
      | Some (JArray []) => true
      | Some (JString EmptyString) => true
      | Some (JObject []) => true
      | Some (JArray (JObject first :: _)) =>
          match dict_get "aaaLogin" first with
          | None => true
          | Some (JObject a) =>
              match dict_get "attributes" a with
              | None => true
              | Some (JObject _) => true
              | Some _ => false
              end
          | Some _ => false
          end
      | Some _ => false
      end
  | JArray items => negb (has_item "imdata" items)
  | JString s => negb (contains s "imdata")
  | _ => false
  end.

(** [len(v)] is defined. *)
Definition has_length (v : json) : bool :=
  match v with
  | JArray _ | JString _ | JObject _ => true
  | _ => false
  end.

(** The answers of the query on which lines 121-125 raise nothing: an
    object whose [imdata], when it has one, has a length; a list or a
    string in which neither [imdata] nor [totalCount] occurs. *)
Definition formattable (result : json) : bool :=
  match result with
  | JObject members =>
      match dict_get "imdata" members with
      | Some imdata => has_length imdata
      | None => true
      end
  | JArray items =>
      negb (has_item "imdata" items) && negb (has_item "totalCount" items)
  | JString s => negb (contains s "imdata") && negb (contains s "totalCount")
  | _ => false
  end.

(** The status line [raise_for_status] lets through. *)
Definition status_ok (r : response) : bool :=
  negb ((400 <=? status_code r) && (status_code r <? 600)).

(** The call [authenticate_aci] makes. *)
Definition login_request (apic_url : string) (username password : json)
  : request :=
  mkRequest POST (urljoin apic_url "/api/aaaLogin.json")
            (Some (aaaUser_payload username password)) None None false [].

(** The session [authenticate_aci] returns for [token]. *)
Definition logged_in (timeout : Z) (token : json) : Session :=
  mkSession false (Some timeout) [("Cookie", "APIC-cookie=" ++ py_str token)].

(** The call [query_aci_api] makes for an [api_path] that is a [str]. *)
Definition query_request (session : Session) (apic_url api_path : string)
    (params : json) : request :=
  mkRequest GET (urljoin apic_url (normalize_api_path api_path))
            None (Some params) None (verify session) (headers session).

(** The [timeout] of the input, or its default. *)
Definition timeout_of (members : list (string * json)) : json :=
  match dict_get "timeout" members with Some x => x | None => JInt 30 end.

(** The [query_params] of the input, or their default. *)
Definition query_params_of (members : list (string * json)) : json :=
  match dict_get "query_params" members with
  | Some x => x
  | None => JObject []
  end.

(** [m] changes the state only within the relation [R]. *)
Definition keeps (R : state -> state -> Prop) {A} (m : M A) : Prop :=
  forall st, R st (snd (m st)).

(** Nothing is printed. *)
Definition same_output (st st' : state) : Prop := printed st' = printed st.

(** Every call made satisfies [Q] if every earlier call did. *)
Definition calls_satisfy (Q : request -> Prop) (st st' : state) : Prop :=
  Forall Q (net_calls st) -> Forall Q (net_calls st').

(** ** Sample worlds *)

(** A world in which [urljoin] accepts every base and the environment
    sets no CA bundle. *)
Definition plain_world (stdin : result json)
    (net : request -> result response) (clock : Z) : world :=
  mkWorld stdin (fun _ => None) None net clock.

Definition sample_input : json :=
  JObject [("apic_url", JString "https://apic.example.net/");
           ("username", JString "admin");
           ("password", JString "secret");
           ("api_path", JString "node/class/fvTenant.json");
           ("timeout", JString "5")].

Definition login_body (token : json) : json :=
  JObject [("imdata",
            JArray [JObject [("aaaLogin",
                              JObject [("attributes",
                                        JObject [("token", token)])])]])].

Definition sample_result : json :=
  JObject [("imdata", JArray [JObject [("a", JInt 1)]; JObject [("a", JInt 2)]]);
           ("totalCount", JString "2")].

(** A transport that answers the login with [login] and the query with
    [query]. *)
Definition answers (login query : result response) (r : request)
  : result response :=
  match req_method r with
  | POST => login
  | GET => query
  end.

Definition ok_response (body : json) : response :=
  mkResponse 200 EmptyString (Ok body).

Definition sample_world : world :=
  plain_world (Ok sample_input)
          (answers (Ok (ok_response (login_body (JString "T0K"))))
                   (Ok (ok_response sample_result)))
          1700000000.

(** The query answers [{"imdata": null}]. *)
Definition null_imdata_world : world :=
  plain_world (Ok sample_input)
          (answers (Ok (ok_response (login_body (JString "T0K"))))
                   (Ok (ok_response (JObject [("imdata", JNull)]))))
          1700000000.

(** The input has no [password]. *)
Definition missing_password_world : world :=
  plain_world (Ok (JObject [("apic_url", JString "https://apic.example.net");
                        ("username", JString "admin");
                        ("api_path", JString "/api/class/fvTenant.json")]))
          (answers (Ok (ok_response (login_body (JString "T0K"))))
                   (Ok (ok_response sample_result)))
          1700000000.

(** The input has [username] set to [null]. *)
Definition null_username_world : world :=
  plain_world (Ok (JObject [("apic_url", JString "https://apic.example.net");
                        ("username", JNull);
                        ("password", JString "secret");
                        ("api_path", JString "/api/class/fvTenant.json")]))
          (answers (Ok (ok_response (login_body (JString "T0K"))))
                   (Ok (ok_response sample_result)))
          1700000000.

(** The login answers [{"imdata": null}]. *)
Definition null_login_world : world :=
  plain_world (Ok sample_input)
          (answers (Ok (ok_response (JObject [("imdata", JNull)])))
                   (Ok (ok_response sample_result)))
          1700000000.

(** The login answers [{}]. *)
Definition empty_login_world : world :=
  plain_world (Ok sample_input)
          (answers (Ok (ok_response (JObject [])))
                   (Ok (ok_response sample_result)))
          1700000000.

(** What [main] reads from [sample_input]. *)
Definition sample_args : args :=
  mkArgs "https://apic.example.net" (JString "admin") (JString "secret")
         (JString "node/class/fvTenant.json") 5 (JObject []).

(** The four required keys, each set to [null]. *)
Definition all_null_world : world :=
  plain_world (Ok (JObject [("apic_url", JNull); ("username", JNull);
                        ("password", JNull); ("api_path", JNull)]))
          (answers (Ok (ok_response (login_body (JString "T0K"))))
                   (Ok (ok_response sample_result)))
          1700000000.

(** The login answers with an empty token. *)
Definition empty_token_world : world :=
  plain_world (Ok sample_input)
          (answers (Ok (ok_response (login_body (JString EmptyString))))
                   (Ok (ok_response sample_result)))
          1700000000.

(** The text [Response.json] gives for a body that is not JSON. *)
Definition not_json : string := "Expecting value: line 1 column 1 (char 0)".

(** The login answers 200 with a body that is not JSON, on requests 2.27
    or later. *)
Definition html_login_world : world :=
  plain_world (Ok sample_input)
          (answers (Ok (mkResponse 200 EmptyString
                          (Raise (mkExc RequestsJSONDecodeError not_json))))
                   (Ok (ok_response sample_result)))
          1700000000.

(** The query answers 200 with a body that is not JSON, on requests 2.27
    or later. *)
Definition html_query_world : world :=
  plain_world (Ok sample_input)
          (answers (Ok (ok_response (login_body (JString "T0K"))))
                   (Ok (mkResponse 200 EmptyString
                          (Raise (mkExc RequestsJSONDecodeError not_json)))))
          1700000000.
(** ** More sample worlds *)

Definition good_transport : request -> result response :=
  answers (Ok (ok_response (login_body (JString "T0K"))))
          (Ok (ok_response sample_result)).

(** Standard input is not JSON. *)
Definition garbage_stdin_world : world :=
  plain_world (Raise (mkExc JSONDecodeError not_json)) good_transport 1700000000.

(** Standard input is the JSON text of an empty list. *)
Definition list_input_world : world :=
  plain_world (Ok (JArray [])) good_transport 1700000000.

(** The input has [username] and [api_path] only. *)
Definition two_keys_world : world :=
  plain_world (Ok (JObject [("username", JString "admin");
                        ("api_path", JString "/api/class/fvTenant.json")]))
          good_transport 1700000000.

(** The input with [apic_url] set to [apic_url] and [timeout] to
    [timeout]. *)
Definition input_with (apic_url api_path timeout : json) : json :=
  JObject [("apic_url", apic_url);
           ("username", JString "admin");
           ("password", JString "secret");
           ("api_path", api_path);
           ("timeout", timeout)].

Definition numeric_url_world : world :=
  plain_world (Ok (input_with (JInt 5) (JString "class/fvTenant.json") (JInt 5)))
          good_transport 1700000000.

Definition bad_timeout_world : world :=
  plain_world (Ok (input_with (JString "https://apic.example.net")
                 (JString "class/fvTenant.json") (JString "soon")))
          good_transport 1700000000.

Definition numeric_path_world : world :=
  plain_world (Ok (input_with (JString "https://apic.example.net")
                 (JInt 7) (JInt 5)))
          good_transport 1700000000.

(** The login is answered 401. *)
Definition login_401_world : world :=
  plain_world (Ok sample_input)
          (answers (Ok (mkResponse 401 "401 Client Error: Unauthorized"
                          (Ok (JObject []))))
                   (Ok (ok_response sample_result)))
          1700000000.

(** The controller cannot be reached. *)
Definition login_down_world : world :=
  plain_world (Ok sample_input)
          (answers (Raise (mkExc ConnectionError "Connection refused"))
                   (Ok (ok_response sample_result)))
          1700000000.

(** The query is answered 404. *)
Definition query_404_world : world :=
  plain_world (Ok sample_input)
          (answers (Ok (ok_response (login_body (JString "T0K"))))
                   (Ok (mkResponse 404 "404 Client Error: Not Found"
                          (Ok (JObject [])))))
          1700000000.

(** The query times out. *)
Definition query_down_world : world :=
  plain_world (Ok sample_input)
          (answers (Ok (ok_response (login_body (JString "T0K"))))
                   (Raise (mkExc ReadTimeout "Read timed out.")))
          1700000000.

(** The input has the four required keys only. *)
Definition minimal_input : json :=
  JObject [("apic_url", JString "https://apic.example.net//");
           ("username", JString "admin");
           ("password", JString "secret");
           ("api_path", JString "/api/class/fvTenant.json")].

(** The four required keys, [apic_url] a string and the other three
    [null]. *)
Definition null_credentials_world : world :=
  plain_world (Ok (JObject [("apic_url", JString "https://apic.example.net");
                            ("username", JNull); ("password", JNull);
                            ("api_path", JNull)]))
              good_transport 1700000000.

(** The base URL has an opening bracket without its closing one, which
    [urljoin] refuses. *)
Definition bracket_input : json :=
  input_with (JString "http://[::1") (JString "class/fvTenant.json") (JInt 5).

Definition bracket_args : args :=
  mkArgs "http://[::1" (JString "admin") (JString "secret")
         (JString "class/fvTenant.json") 5 (JObject []).

Definition refusing_world : world :=
  mkWorld (Ok bracket_input)
          (fun base => if String.eqb base "http://[::1"
                       then Some "Invalid IPv6 URL" else None)
          None good_transport 1700000000.

(** A text of [n] digits 9. *)
Fixpoint nines (n : nat) : string :=
  match n with
  | O => EmptyString
  | S k => String "9" (nines k)
  end.

(** A CA bundle is set in the environment. *)
Definition ca_bundle_world : world :=
  mkWorld (Ok sample_input) (fun _ => None) (Some "/etc/ssl/certs/ca.pem")
          good_transport 1700000000.

(** [s] ends with a slash. *)
Fixpoint ends_with_slash (s : string) : bool :=
  match s with
  | EmptyString => false
  | String c EmptyString => Ascii.eqb c "/"
  | String _ rest => ends_with_slash rest
  end.

(** [n] slashes. *)
Fixpoint slashes (n : nat) : string :=
  match n with
  | O => EmptyString
  | S n' => String "/" (slashes n')
  end.

(** The value of each member is a [str]. *)
Definition flat (envelope : list (string * json)) : Prop :=
  Forall (fun kv => exists s, snd kv = JString s) envelope.

(** [m] returns only values that satisfy [P]. *)
Definition returns {A} (P : A -> Prop) (m : M A) : Prop :=
  forall st a st', m st = (Ok a, st') -> P a.

(** [m] raises only exceptions that satisfy [P]. *)
Definition raises {A} (P : exc -> Prop) (m : M A) : Prop :=
  forall st e st', m st = (Raise e, st') -> P e.

(** * Facts about strings *)

Lemma append_assoc (a b c : string) : ((a ++ b) ++ c = a ++ (b ++ c))%string.
Proof. induction a as [|x a IH]; simpl; [reflexivity | now rewrite IH]. Qed.

Lemma append_empty (a : string) : (a ++ EmptyString = a)%string.
Proof. induction a as [|x a IH]; simpl; [reflexivity | now rewrite IH]. Qed.

Lemma length_append (a b : string) :
  String.length (a ++ b) = (String.length a + String.length b)%nat.
Proof. induction a as [|x a IH]; simpl; [reflexivity | now rewrite IH]. Qed.

(** * Reading back what [json.dumps] writes *)

(** ** String literals *)

Lemma parse_chars_dumps_char (c : ascii) (t : string) :
  parse_chars (dumps_char c ++ t) = cons_char c (parse_chars t).
Proof.
  destruct c as [[|] [|] [|] [|] [|] [|] [|] [|]]; reflexivity.
Qed.

Lemma parse_chars_dumps (s rest : string) :
  parse_chars (dumps_chars s ++ String dquote rest) = Some (s, rest).
Proof.
  induction s as [|c s IH]; simpl.
  - reflexivity.
  - rewrite append_assoc, parse_chars_dumps_char, IH. reflexivity.
Qed.

(** ** Integers *)

Lemma all_num_uint (d : Decimal.uint) : all_num (NilEmpty.string_of_uint d) = true.
Proof. induction d; simpl; auto. Qed.

Lemma all_num_string_of_Z (z : Z) : all_num (string_of_Z z) = true.
Proof.
  unfold string_of_Z.
  destruct (Z.to_int z) as [d|d]; simpl;
    destruct d; try reflexivity; simpl; apply all_num_uint.
Qed.

Lemma string_of_Z_nonempty (z : Z) :
  exists c t, string_of_Z z = String c t /\ is_num_char c = true.
Proof.
  pose proof (all_num_string_of_Z z) as H.
  unfold string_of_Z in *.
  destruct (Z.to_int z) as [d|d] eqn:E; simpl in *.
  - destruct d; simpl in *; eauto.
  - eauto.
Qed.

Lemma delimited_not_num (rest : string) :
  delimited rest = true ->
  match rest with
  | EmptyString => True
  | String c _ => is_num_char c = false
  end /\ starts_fraction rest = false.
Proof.
  destruct rest as [|c r]; simpl; [auto|].
  destruct c as [[|] [|] [|] [|] [|] [|] [|] [|]]; simpl; intros H;
    try discriminate; auto.
Qed.

Lemma span_num_app (tok rest : string) :
  all_num tok = true ->
  match rest with
  | EmptyString => True
  | String c _ => is_num_char c = false
  end ->
  span_num (tok ++ rest) = (tok, rest).
Proof.
  intros Htok Hrest. induction tok as [|c tok IH]; simpl in *.
  - destruct rest as [|c r]; simpl; [reflexivity | now rewrite Hrest].
  - apply andb_prop in Htok as [Hc Htok]. rewrite Hc, IH by assumption.
    reflexivity.
Qed.

Lemma int_of_string_of_Z (z : Z) :
  NilZero.int_of_string (string_of_Z z) = Some (Z.to_int z).
Proof.
  unfold string_of_Z. apply NilZero.isi.
  - destruct z; simpl; try discriminate.
    intros [= E]. now apply Unsigned.to_uint_nonnil in E.
  - destruct z; simpl; try discriminate.
    intros [= E]. now apply Unsigned.to_uint_nonnil in E.
Qed.

Lemma parse_int_dumps (z : Z) (rest : string) :
  delimited rest = true ->
  parse_int (string_of_Z z ++ rest) = Some (JInt z, rest).
Proof.
  intros Hd. apply delimited_not_num in Hd as [Hnum Hfrac].
  unfold parse_int.
  rewrite span_num_app by (auto using all_num_string_of_Z).
  rewrite int_of_string_of_Z, DecimalZ.of_to, String.eqb_refl, Hfrac.
  reflexivity.
Qed.

Lemma parse_value_num (fuel : nat) (c : ascii) (r : string) :
  is_num_char c = true ->
  parse_value (S fuel) (String c r) = parse_int (String c r).
Proof.
  destruct c as [[|] [|] [|] [|] [|] [|] [|] [|]]; intros H;
    try discriminate H; reflexivity.
Qed.
(** ** Values *)

Lemma json_dumps_array (items : list json) :
  json_dumps (JArray items) = "[" ++ join ", " (map json_dumps items) ++ "]".
Proof. reflexivity. Qed.

Lemma json_dumps_object (members : list (string * json)) :
  json_dumps (JObject members) =
  "{" ++ join ", "
           (map (fun kv => dumps_str (fst kv) ++ ": " ++ json_dumps (snd kv))
                members) ++ "}".
Proof. reflexivity. Qed.

Lemma json_dumps_start (v : json) (t : string) :
  exists c r, json_dumps v ++ t = String c r /\ value_start c = true.
Proof.
  destruct v as [|[|]|n|s|items|members]; simpl; eauto.
  destruct (string_of_Z_nonempty n) as (c & r & -> & Hc).
  exists c, (r ++ t). split; [reflexivity|].
  unfold value_start. now rewrite Hc.
Qed.

Lemma value_start_skip (c : ascii) (r : string) :
  value_start c = true ->
  skip_ws (String c r) = String c r
  /\ Ascii.eqb c "]" = false /\ Ascii.eqb c "}" = false.
Proof.
  destruct c as [[|] [|] [|] [|] [|] [|] [|] [|]]; intros H;
    try discriminate H; repeat split.
Qed.

Lemma parse_value_space (fuel : nat) (s : string) :
  parse_value fuel (String " " s) = parse_value fuel s.
Proof. destruct fuel; reflexivity. Qed.

Lemma parse_items_space (fuel : nat) (s : string) :
  parse_items fuel (String " " s) = parse_items fuel s.
Proof. destruct fuel; [reflexivity|]. simpl. now rewrite parse_value_space. Qed.

Lemma parse_members_space (fuel : nat) (s : string) :
  parse_members fuel (String " " s) = parse_members fuel s.
Proof. destruct fuel; reflexivity. Qed.

Lemma parse_items_dumps (items : list json) :
  items <> [] -> Forall reads items ->
  forall fuel rest,
    (list_sum (map (fun x => S (need x)) items) <= fuel)%nat ->
    forallb keys_unique items = true ->
    parse_items fuel (join ", " (map json_dumps items) ++ String "]" rest)
    = Some (items, rest).
Proof.
  intros Hne Hall. induction Hall as [|x l Hx Hl IH]; [congruence|].
  intros fuel rest Hfuel Hkeys.
  simpl in Hfuel, Hkeys. apply andb_prop in Hkeys as [Hkx Hkl].
  destruct fuel as [|fuel]; [lia|].
  destruct l as [|y l'].
  - cbn [map join]. cbn [parse_items].
    rewrite Hx by (simpl; auto; lia). reflexivity.
  - change (join ", " (map json_dumps (x :: y :: l')))
      with (json_dumps x ++ ", " ++ join ", " (map json_dumps (y :: l'))).
    rewrite !append_assoc. cbn [parse_items].
    rewrite Hx by (simpl; auto; lia).
    cbn [append skip_ws is_json_ws Ascii.eqb Bool.eqb orb].
    rewrite parse_items_space.
    rewrite IH; [reflexivity | discriminate | lia | assumption].
Qed.

Lemma parse_members_dumps (members : list (string * json)) :
  members <> [] -> Forall (fun kv => reads (snd kv)) members ->
  forall fuel rest,
    (list_sum (map (fun kv => S (need (snd kv))) members) <= fuel)%nat ->
    forallb (fun kv => keys_unique (snd kv)) members = true ->
    parse_members fuel
      (join ", " (map (fun kv => dumps_str (fst kv) ++ ": " ++ json_dumps (snd kv))
                      members) ++ String "}" rest)
    = Some (members, rest).
Proof.
  intros Hne Hall. induction Hall as [|[k x] l Hx Hl IH]; [congruence|].
  intros fuel rest Hfuel Hkeys.
  simpl in Hfuel, Hkeys, Hx. apply andb_prop in Hkeys as [Hkx Hkl].
  destruct fuel as [|fuel]; [lia|].
  destruct l as [|y l'].
  - cbn [map join fst snd]. unfold dumps_str, DQ.
    rewrite !append_assoc. cbn [append parse_members skip_ws is_json_ws Ascii.eqb Bool.eqb orb dquote].
    rewrite ?append_assoc.
    rewrite parse_chars_dumps.
    cbn [append skip_ws is_json_ws Ascii.eqb Bool.eqb orb].
    rewrite parse_value_space, Hx by (simpl; auto; lia). reflexivity.
  - change (join ", " (map ?f ((k, x) :: y :: l')))
      with (f (k, x) ++ ", " ++ join ", " (map f (y :: l'))).
    cbn [fst snd]. unfold dumps_str, DQ.
    rewrite !append_assoc. cbn [append parse_members skip_ws is_json_ws Ascii.eqb Bool.eqb orb dquote].
    rewrite ?append_assoc.
    rewrite parse_chars_dumps.
    cbn [append skip_ws is_json_ws Ascii.eqb Bool.eqb orb].
    rewrite parse_value_space, Hx by (simpl; auto; lia).
    cbn [append skip_ws is_json_ws Ascii.eqb Bool.eqb orb].
    rewrite parse_members_space.
    rewrite IH; [reflexivity | discriminate | lia | assumption].
Qed.

(** Building a dict from pairs with distinct keys keeps the pairs. *)
Lemma dict_set_fresh (k : string) (v : json) (d : list (string * json)) :
  existsb (String.eqb k) (map fst d) = false ->
  dict_set k v d = (d ++ [(k, v)])%list.
Proof.
  induction d as [|[k' v'] d IH]; simpl; [reflexivity|].
  intros H. apply orb_false_elim in H as [Hk Hd].
  rewrite Hk, IH by assumption. reflexivity.
Qed.

Lemma fold_dict_set (pairs acc : list (string * json)) :
  distinct (map fst (acc ++ pairs)%list) = true ->
  fold_left (fun d kv => dict_set (fst kv) (snd kv) d) pairs acc
  = (acc ++ pairs)%list.
Proof.
  revert acc. induction pairs as [|[k v] pairs IH]; intros acc H; simpl.
  - now rewrite List.app_nil_r.
  - rewrite dict_set_fresh.
    + rewrite IH; rewrite <- List.app_assoc; [reflexivity | exact H].
    + clear IH. induction acc as [|[k' v'] acc IHa]; simpl in *; [reflexivity|].
      apply andb_prop in H as [Hk' Hrest].
      rewrite IHa by assumption. rewrite orb_false_r.
      rewrite map_app, existsb_app in Hk'. simpl in Hk'.
      apply negb_true_iff in Hk'.
      apply orb_false_elim in Hk' as [_ Hk'].
      apply orb_false_elim in Hk' as [Hk' _].
      now rewrite String.eqb_sym.
Qed.

Lemma dict_of_pairs_distinct (pairs : list (string * json)) :
  distinct (map fst pairs) = true -> dict_of_pairs pairs = pairs.
Proof. intros H. unfold dict_of_pairs. now rewrite fold_dict_set. Qed.

Lemma reads_all (v : json) : reads v.
Proof.
  induction v as [| b | n | s | items IH | members IH] using json_nested_ind;
    intros fuel rest Hfuel Hkeys Hdelim;
    (destruct fuel as [|fuel]; [simpl in Hfuel; lia|]).
  - reflexivity.
  - destruct b; reflexivity.
  - destruct (string_of_Z_nonempty n) as (c & r & E & Hc).
    change (json_dumps (JInt n)) with (string_of_Z n).
    pose proof (parse_int_dumps n rest Hdelim) as Hp.
    rewrite E in *. simpl append in *. now rewrite parse_value_num.
  - change (json_dumps (JString s)) with (dumps_str s). unfold dumps_str, DQ.
    rewrite !append_assoc.
    cbn [append parse_value skip_ws is_json_ws Ascii.eqb Bool.eqb orb dquote].
    rewrite ?append_assoc.
    now rewrite parse_chars_dumps.
  - rewrite json_dumps_array, !append_assoc.
    cbn [append parse_value skip_ws is_json_ws Ascii.eqb Bool.eqb orb dquote].
    destruct items as [|x l]; [reflexivity|].
    destruct (json_dumps_start x
                (", " ++ join ", " (map json_dumps l) ++ String "]" rest))
      as (c & r & E & Hc).
    assert (Es : exists c r,
               join ", " (map json_dumps (x :: l)) ++ String "]" rest = String c r
               /\ value_start c = true).
    { destruct l as [|y l'].
      - apply json_dumps_start.
      - change (join ", " (map json_dumps (x :: y :: l')))
          with (json_dumps x ++ ", " ++ join ", " (map json_dumps (y :: l'))).
        rewrite append_assoc. apply json_dumps_start. }
    destruct Es as (c' & r' & E' & Hc').
    destruct (value_start_skip c' r' Hc') as (Hs & Hb & _).
    rewrite E', Hs, Hb, <- E'.
    simpl in Hfuel, Hkeys.
    rewrite parse_items_dumps;
      [reflexivity | discriminate | assumption | simpl; lia | assumption].
  - rewrite json_dumps_object, !append_assoc.
    cbn [append parse_value skip_ws is_json_ws Ascii.eqb Bool.eqb orb dquote].
    destruct members as [|[k x] l]; [reflexivity|].
    match goal with
    | |- context [skip_ws ?t] => assert (Es : exists r, t = String dquote r)
    end.
    { destruct l as [|y l']; unfold dumps_str, DQ; simpl; eauto. }
    destruct Es as (r' & E').
    rewrite E'.
    cbn [append skip_ws is_json_ws Ascii.eqb Bool.eqb orb dquote].
    rewrite <- E'.
    simpl in Hfuel. cbn [keys_unique] in Hkeys.
    apply andb_prop in Hkeys as [Hdist Hkeys].
    rewrite parse_members_dumps;
      [ | discriminate | assumption | simpl; lia | assumption].
    now rewrite dict_of_pairs_distinct.
Qed.

(** ** Enough fuel *)

Lemma need_bound (v : json) :
  (need v <= 2 * String.length (json_dumps v) + 1)%nat.
Proof.
  induction v as [| b | n | s | items IH | members IH] using json_nested_ind;
    try (simpl; lia).
  - rewrite json_dumps_array. cbn [need].
    rewrite !length_append. cbn [String.length].
    assert (H : (list_sum (map (fun x => S (need x)) items)
                 <= 2 * String.length (join ", " (map json_dumps items)) + 2)%nat).
    { induction IH as [|x l Hx Hl IHl]; [simpl; lia|].
      destruct l as [|y l'].
      - simpl in *. lia.
      - change (join ", " (map json_dumps (x :: y :: l')))
          with (json_dumps x ++ ", " ++ join ", " (map json_dumps (y :: l'))).
        rewrite !length_append. cbn [map list_sum fold_right String.length] in *. lia. }
    lia.
  - rewrite json_dumps_object. cbn [need].
    rewrite !length_append. cbn [String.length].
    assert (H : (list_sum (map (fun kv => S (need (snd kv))) members)
                 <= 2 * String.length
                          (join ", "
                             (map (fun kv => dumps_str (fst kv) ++ ": "
                                             ++ json_dumps (snd kv)) members))
                    + 2)%nat).
    { induction IH as [|[k x] l Hx Hl IHl]; [simpl; lia|].
      destruct l as [|y l'].
      - cbn [map join list_sum fold_right fst snd] in *.
        rewrite !length_append. lia.
      - change (join ", " (map ?f ((k, x) :: y :: l')))
          with (f (k, x) ++ ", " ++ join ", " (map f (y :: l'))).
        rewrite !length_append. cbn [map list_sum fold_right String.length fst snd] in *.
        lia. }
    lia.
Qed.

(** [json.loads(json.dumps(v)) == v] *)
Lemma json_loads_dumps (v : json) :
  keys_unique v = true -> json_loads (json_dumps v) = Ok v.
Proof.
  intros Hk. unfold json_loads.
  pose proof (reads_all v (2 * String.length (json_dumps v) + 1)%nat EmptyString
                (need_bound v) Hk eq_refl) as H.
  rewrite append_empty in H. now rewrite H.
Qed.

(** * The script *)

(** ** What the stages leave unchanged *)

Section keeps_basic.

Variable R : state -> state -> Prop.
Hypothesis R_refl : forall st, R st st.
Hypothesis R_trans : forall a b c, R a b -> R b c -> R a c.

Lemma keeps_ret {A} (a : A) : keeps R (ret a).
Proof. intros st. apply R_refl. Qed.

Lemma keeps_raise {A} (e : exc) : keeps R (@raise A e).
Proof. intros st. apply R_refl. Qed.

Lemma keeps_lift {A} (r : result A) : keeps R (lift r).
Proof. intros st. apply R_refl. Qed.

Lemma keeps_bind {A B} (m : M A) (k : A -> M B) :
  keeps R m -> (forall a, keeps R (k a)) -> keeps R (bind m k).
Proof.
  intros Hm Hk st. unfold bind. specialize (Hm st).
  destruct (m st) as [[a|e] st']; simpl in *; [|assumption].
  eapply R_trans; [exact Hm | apply Hk].
Qed.

Lemma keeps_try {A} (body : M A) (handler : exc -> option (M A)) :
  keeps R body -> (forall e h, handler e = Some h -> keeps R h) ->
  keeps R (try_except body handler).
Proof.
  intros Hb Hh st. unfold try_except. specialize (Hb st).
  destruct (body st) as [[a|e] st']; simpl in *; [assumption|].
  destruct (handler e) as [h|] eqn:E; [|assumption].
  eapply R_trans; [exact Hb | eapply Hh, E].
Qed.

Lemma keeps_raise_for_status (r : response) : keeps R (raise_for_status r).
Proof.
  unfold raise_for_status.
  destruct (_ && _); [apply keeps_raise | apply keeps_ret].
Qed.

End keeps_basic.

(** One step of a proof of [keeps R m], by the shape of [m]. *)
Ltac keeps_step refl trans :=
  match goal with
  | |- keeps _ (bind _ _) => apply (keeps_bind _ trans); [|intro]
  | |- keeps _ (ret _) => apply (keeps_ret _ refl)
  | |- keeps _ (raise _) => apply (keeps_raise _ refl)
  | |- keeps _ (lift _) => apply (keeps_lift _ refl)
  | |- keeps _ (raise_for_status _) => apply (keeps_raise_for_status _ refl)
  | |- keeps _ (if ?b then _ else _) => destruct b
  | |- keeps _ _ => solve [auto]
  end.

(** The clauses of the [try] of a stage only raise. *)
Ltac keeps_handlers refl :=
  let e := fresh "e" in
  let h := fresh "h" in
  intros e h;
  repeat match goal with
         | |- (if ?b then _ else _) = Some _ -> _ => destruct b
         end;
  intros [= <-]; apply (keeps_raise _ refl).

Section keeps_stages.

Variable R : state -> state -> Prop.
Hypothesis R_refl : forall st, R st st.
Hypothesis R_trans : forall a b c, R a b -> R b c -> R a c.
Hypothesis R_post : forall w s u p, keeps R (session_post w s u p).
Hypothesis R_get : forall w s u p, keeps R (session_get w s u p).

Lemma keeps_authenticate_aci (w : world) (apic_url : string)
    (username password : json) (timeout : Z) :
  keeps R (authenticate_aci w apic_url username password timeout).
Proof.
  unfold authenticate_aci.
  apply (keeps_bind _ R_trans); [apply (keeps_lift _ R_refl)|intro login_url].
  apply (keeps_try _ R_trans);
    [repeat keeps_step R_refl R_trans | keeps_handlers R_refl].
Qed.

Lemma keeps_query_aci_api (w : world) (session : Session) (apic_url : string)
    (api_path params : json) :
  keeps R (query_aci_api w session apic_url api_path params).
Proof.
  unfold query_aci_api.
  destruct api_path; try apply (keeps_raise _ R_refl).
  apply (keeps_bind _ R_trans); [apply (keeps_lift _ R_refl)|intro query_url].
  apply (keeps_try _ R_trans);
    [repeat keeps_step R_refl R_trans | keeps_handlers R_refl].
Qed.

Lemma keeps_main_fetch (w : world) : keeps R (main_fetch w).
Proof.
  unfold main_fetch. repeat keeps_step R_refl R_trans.
  - apply keeps_authenticate_aci.
  - apply keeps_query_aci_api.
Qed.

End keeps_stages.

(** The two stages print nothing. *)
Lemma main_fetch_prints_nothing (w : world) :
  printed (snd (main_fetch w initial)) = [].
Proof.
  apply (keeps_main_fetch same_output); unfold same_output, keeps.
  - reflexivity.
  - intros a b c -> ->. reflexivity.
  - reflexivity.
  - reflexivity.
Qed.

(** No call of the script carries a [timeout] keyword. *)
Lemma main_fetch_calls_without_timeout (w : world) :
  Forall (fun r => req_timeout r = None) (net_calls (snd (main_fetch w initial))).
Proof.
  apply (keeps_main_fetch (calls_satisfy (fun r => req_timeout r = None)));
    unfold calls_satisfy, keeps.
  - auto.
  - auto.
  - intros w' s u p st H. simpl. apply Forall_app. split; [assumption|].
    constructor; [reflexivity | constructor].
  - intros w' s u p st H. simpl. apply Forall_app. split; [assumption|].
    constructor; [reflexivity | constructor].
  - constructor.
Qed.

(** [main] in terms of its stages. *)
Lemma main_after_fetch (w : world) :
  main w =
  match main_fetch w initial with
  | (Ok result, st) =>
      match success_output w result with
      | Ok output => mkRun [json_dumps (JObject output)] 0 (net_calls st)
      | Raise e =>
          mkRun [json_dumps (JObject (error_output w (main_error_message e)))]
                1 (net_calls st)
      end
  | (Raise e, st) =>
      mkRun [json_dumps (JObject (error_output w (main_error_message e)))]
            1 (net_calls st)
  end.
Proof.
  pose proof (main_fetch_prints_nothing w) as Hq.
  unfold main, main_try, bind, lift, print.
  destruct (main_fetch w initial) as [[result|e] st]; simpl in *.
  - destruct (success_output w result) as [output|e]; simpl; now rewrite Hq.
  - now rewrite Hq.
Qed.

(** ** The envelopes *)

Lemma error_output_reads_back (w : world) (msg : string) :
  json_loads (json_dumps (JObject (error_output w msg)))
  = Ok (JObject (error_output w msg)).
Proof. apply json_loads_dumps. reflexivity. Qed.

(** The envelope of a successful run: its fixed members, its counts, and
    its distinct keys. *)
Lemma success_output_members (w : world) (result : json)
    (output : list (string * json)) :
  success_output w result = Ok output ->
  keys_unique (JObject output) = true
  /\ dict_get "json_data" output = Some (JString (json_dumps result))
  /\ dict_get "status" output = Some (JString "success")
  /\ dict_get "timestamp" output = Some (JString (string_of_Z (now w)))
  /\ dict_get "error_message" output = None.
Proof.
  unfold success_output, rbind.
  destruct (py_in "imdata" result) as [[|]|]; try discriminate;
    try (destruct (py_getitem result "imdata") as [imdata|]; try discriminate;
         destruct (py_len imdata); try discriminate);
    (destruct (py_in "totalCount" result) as [[|]|]; try discriminate);
    try (destruct (py_getitem result "totalCount"); try discriminate);
    intros [= <-]; repeat split; reflexivity.
Qed.


(** The answers that can be formatted are formatted, with the counts
    lines 121-125 add. *)
Lemma success_output_formattable (w : world) (result : json) :
  formattable result = true ->
  exists output,
    success_output w result = Ok output
    /\ dict_get "record_count" output
       = match result with
         | JObject members =>
             match dict_get "imdata" members with
             | Some imdata =>
                 match py_len imdata with
                 | Ok n => Some (JString (string_of_Z n))
                 | Raise _ => None
                 end
             | None => None
             end
         | _ => None
         end
    /\ dict_get "total_count" output
       = match result with
         | JObject members =>
             match dict_get "totalCount" members with
             | Some totalCount => Some (JString (py_str totalCount))
             | None => None
             end
         | _ => None
         end.
Proof.
  unfold formattable, has_item, has_length, success_output, rbind, py_in,
    py_getitem, dict_has.
  destruct result as [| | | s | items | members]; try discriminate.
  - destruct (contains s "imdata"); [discriminate|].
    destruct (contains s "totalCount"); [discriminate|].
    intros _. eexists. repeat split.
  - destruct (existsb _ items); [discriminate|].
    destruct (existsb _ items); [discriminate|].
    intros _. eexists. repeat split.
  - destruct (dict_get "imdata" members) as [imdata|];
      [destruct imdata; try discriminate; cbn|];
      destruct (dict_get "totalCount" members);
      intros _; eexists; repeat split; reflexivity.
Qed.

(** The other answers make lines 121-125 raise. *)
Lemma success_output_unformattable (w : world) (result : json) :
  formattable result = false -> exists e, success_output w result = Raise e.
Proof.
  unfold formattable, has_item, has_length, success_output, rbind, py_in,
    py_getitem, dict_has.
  destruct result as [| | | s | items | members]; cbn; eauto.
  - destruct (contains s "imdata"); cbn; eauto.
    destruct (contains s "totalCount"); cbn; eauto. discriminate.
  - destruct (existsb _ items); cbn; eauto.
    destruct (existsb _ items); cbn; eauto. discriminate.
  - destruct (dict_get "imdata" members) as [imdata|];
      [destruct imdata; cbn; eauto; discriminate | discriminate].
Qed.

(** ** The calls of the two stages *)

(** The state after [m >>= k] and after a [try] whose later steps make no
    call and print nothing. *)
Lemma bind_state {A B} (m : M A) (k : A -> M B) (st : state) :
  (forall a, keeps eq (k a)) -> snd (bind m k st) = snd (m st).
Proof.
  intros Hk. unfold bind. destruct (m st) as [[a|e] st']; simpl;
    [symmetry; apply Hk | reflexivity].
Qed.

Lemma try_state {A} (body : M A) (handler : exc -> option (M A)) (st : state) :
  (forall e h, handler e = Some h -> keeps eq h) ->
  snd (try_except body handler st) = snd (body st).
Proof.
  intros Hh. unfold try_except. destruct (body st) as [[a|e] st']; simpl;
    [reflexivity|].
  destruct (handler e) as [h|] eqn:E; [|reflexivity].
  symmetry. eapply Hh, E.
Qed.

Ltac keeps_eq := repeat keeps_step (@eq_refl state) (@eq_trans state).

(** [urljoin] and what hangs on it. *)
Lemma py_urljoin_ok (w : world) (base ref : string) :
  url_error w base = None -> py_urljoin w base ref = Ok (urljoin base ref).
Proof. intros H. unfold py_urljoin. now rewrite H. Qed.

Lemma py_urljoin_refused (w : world) (base ref text : string) :
  url_error w base = Some text ->
  py_urljoin w base ref = Raise (mkExc ValueError text).
Proof. intros H. unfold py_urljoin. now rewrite H. Qed.

Lemma bind_lift_ok {A B} (a : A) (k : A -> M B) (st : state) :
  bind (lift (Ok a)) k st = k a st.
Proof. reflexivity. Qed.

Lemma bind_lift_raise {A B} (e : exc) (k : A -> M B) (st : state) :
  bind (lift (Raise e)) k st = (Raise e, st).
Proof. reflexivity. Qed.

(** An answer is the answer of a call that could be made. *)
Lemma transport_answer (w : world) (r : request) (resp : response) :
  transport w r = Ok resp ->
  url_error w (url_base (req_url r)) = None /\ network w r = Ok resp.
Proof.
  unfold transport. destruct (url_error w _); [discriminate | auto].
Qed.

Lemma transport_request_error (w : world) (r : request) (e : exc) :
  transport w r = Raise e -> isinstance e RequestException = true ->
  url_error w (url_base (req_url r)) = None /\ network w r = Raise e.
Proof.
  unfold transport. destruct (url_error w _); [|auto].
  intros [= <-]. discriminate.
Qed.

(** [authenticate_aci] makes one call, the login, whatever comes of it,
    when [urljoin] accepts the base, and none when it refuses it. *)
Lemma authenticate_aci_state (w : world) (apic_url : string)
    (username password : json) (timeout : Z) (st : state) :
  url_error w apic_url = None ->
  snd (authenticate_aci w apic_url username password timeout st)
  = mkState (net_calls st ++ [login_request apic_url username password])
            (printed st).
Proof.
  intros Hu. unfold authenticate_aci.
  rewrite (py_urljoin_ok _ _ _ Hu), bind_lift_ok.
  rewrite try_state by (keeps_handlers (@eq_refl state)).
  rewrite bind_state by (intro; keeps_eq).
  reflexivity.
Qed.

Lemma authenticate_aci_refused (w : world) (apic_url : string)
    (username password : json) (timeout : Z) (text : string) (st : state) :
  url_error w apic_url = Some text ->
  authenticate_aci w apic_url username password timeout st
  = (Raise (mkExc ValueError text), st).
Proof.
  intros Hu. unfold authenticate_aci.
  now rewrite (py_urljoin_refused _ _ _ _ Hu), bind_lift_raise.
Qed.

(** [query_aci_api] makes one call for an [api_path] that is a [str], and
    none otherwise. *)
Lemma query_aci_api_state (w : world) (session : Session) (apic_url : string)
    (api_path params : json) (st : state) :
  url_error w apic_url = None ->
  snd (query_aci_api w session apic_url api_path params st)
  = match api_path with
    | JString p =>
        mkState (net_calls st ++ [query_request session apic_url p params])
                (printed st)
    | _ => st
    end.
Proof.
  intros Hu. unfold query_aci_api. destruct api_path; try reflexivity.
  rewrite (py_urljoin_ok _ _ _ Hu), bind_lift_ok.
  rewrite try_state by (keeps_handlers (@eq_refl state)).
  rewrite bind_state by (intro; keeps_eq).
  reflexivity.
Qed.

Lemma query_aci_api_refused (w : world) (session : Session)
    (apic_url p : string) (params : json) (text : string) (st : state) :
  url_error w apic_url = Some text ->
  query_aci_api w session apic_url (JString p) params st
  = (Raise (mkExc ValueError text), st).
Proof.
  intros Hu. unfold query_aci_api.
  now rewrite (py_urljoin_refused _ _ _ _ Hu), bind_lift_raise.
Qed.

(** A login that returns or raises anything but the error of [urljoin]
    went past [urljoin]. *)
Lemma authenticate_aci_returned (w : world) (apic_url : string)
    (username password : json) (timeout : Z) (session : Session)
    (st : state) :
  fst (authenticate_aci w apic_url username password timeout st) = Ok session ->
  url_error w apic_url = None.
Proof.
  destruct (url_error w apic_url) as [text|] eqn:Hu; [|reflexivity].
  now rewrite (authenticate_aci_refused _ _ _ _ _ _ _ Hu).
Qed.

(** ** The stages, step by step *)

Lemma main_fetch_bad_args (w : world) (input_data : json) (e : exc) :
  stdin_json w = Ok input_data -> read_args input_data = Raise e ->
  main_fetch w initial = (Raise e, initial).
Proof. intros H1 H2. unfold main_fetch, bind, lift. now rewrite H1, H2. Qed.

Lemma main_fetch_args (w : world) (input_data : json) (a : args) :
  stdin_json w = Ok input_data -> read_args input_data = Ok a ->
  main_fetch w initial =
  match authenticate_aci w (arg_apic_url a) (arg_username a)
          (arg_password a) (arg_timeout a) initial with
  | (Ok session, st) =>
      query_aci_api w session (arg_apic_url a) (arg_api_path a)
        (arg_query_params a) st
  | (Raise e, st) => (Raise e, st)
  end.
Proof. intros H1 H2. unfold main_fetch, bind, lift. now rewrite H1, H2. Qed.

(** Unfolds a stage whose URL is formed up to the answer [Hn] of the
    network. *)
Ltac enter_stage Hu Hn :=
  rewrite (py_urljoin_ok _ _ _ Hu), bind_lift_ok;
  unfold try_except, bind, session_post, session_get, send, raise_for_status,
    lift;
  cbn [verify headers set_verify set_timeout new_Session];
  match type of Hn with
  | network _ ?r = _ => change (mkRequest _ _ _ _ _ _ _) with r
  end;
  rewrite Hn.

(** Unfolds [authenticate_aci] up to the traversal of the login answer. *)
Ltac enter_login Htransport Hstatus Hbody :=
  let Hu := fresh "Hu" in
  let Hn := fresh "Hn" in
  destruct (transport_answer _ _ _ Htransport) as [Hu Hn];
  cbn [url_base req_url login_request urljoin] in Hu;
  unfold authenticate_aci;
  rewrite (py_urljoin_ok _ _ _ Hu), bind_lift_ok;
  unfold try_except, bind, session_post, send, raise_for_status, lift;
  cbn [verify headers set_verify set_timeout new_Session];
  match type of Hn with
  | network _ ?r = _ => change (mkRequest POST _ _ _ _ _ _) with r
  end;
  rewrite Hn;
  unfold status_ok in Hstatus; apply negb_true_iff in Hstatus;
  rewrite Hstatus, Hbody.

(** Closes a goal about a raised exception once the shape of the answer is
    known. *)
Ltac finish_with H :=
  apply H;
  let Hc := fresh "Hc" in
  intros Hc; try discriminate Hc; reflexivity.

Section login_answer.

Variable w : world.
Variable apic_url : string.
Variables username password : json.
Variable timeout : Z.
Variable resp : response.
Variable login_data : json.
Hypothesis Htransport :
  transport w (login_request apic_url username password) = Ok resp.
Hypothesis Hstatus : status_ok resp = true.
Hypothesis Hbody : body_json resp = Ok login_data.

(** With a token at the path, the stage returns the session carrying it
    when the token is truthy, and fails for want of a token otherwise. *)
Lemma authenticate_aci_token (token : json) (st : state) :
  login_token login_data = Some token ->
  fst (authenticate_aci w apic_url username password timeout st)
  = if truthy token then Ok (logged_in timeout token) else Raise no_token.
Proof.
  intros Htok. unfold login_token in Htok.
  destruct login_data as [| | | | |o]; try discriminate.
  destruct (dict_get "imdata" o) as [[| | | |[|[| | | | |first] rest]|]|] eqn:E1;
    try discriminate.
  destruct (dict_get "aaaLogin" first) as [[| | | | |a]|] eqn:E2;
    try discriminate.
  destruct (dict_get "attributes" a) as [[| | | | |b]|] eqn:E3;
    try discriminate.
  enter_login Htransport Hstatus Hbody.
  unfold py_in, py_getitem, py_get, dict_has.
  repeat (rewrite ?E1, ?E2, ?E3, ?Htok; cbn).
  destruct (truthy token); reflexivity.
Qed.

(** Without a token at the path, it fails, one way or another. *)
Lemma authenticate_aci_no_token (st : state) :
  login_token login_data = None ->
  exists e, fst (authenticate_aci w apic_url username password timeout st)
            = Raise e.
Proof.
  intros Htok. unfold login_token in Htok.
  enter_login Htransport Hstatus Hbody.
  unfold py_in, py_getitem, py_get, py_len, py_getitem0, dict_has.
  destruct login_data as [| | | s | items | o]; cbn; eauto.
  - destruct (contains s "imdata"); cbn; eauto.
  - destruct (existsb _ items); cbn; eauto.
  - destruct (dict_get "imdata" o) as [[| | | s |[|first rest]| m]|] eqn:E1;
      cbn; rewrite ?E1; cbn; eauto.
    + destruct s; cbn; eauto.
    + destruct first as [| | | | |f]; cbn; eauto.
      destruct (dict_get "aaaLogin" f) as [[| | | | |a]|] eqn:E2; cbn; eauto.
      destruct (dict_get "attributes" a) as [[| | | | |b]|] eqn:E3; cbn; eauto.
      rewrite Htok. cbn. eauto.
    + destruct m; cbn; eauto.
Qed.

(** Without a token at the path it fails for want of a token when the
    traversal raises nothing, and with the exception of the traversal
    otherwise, which is none of the script's own and no decode error. *)
Lemma authenticate_aci_without_token (st : state) :
  login_token login_data = None ->
  exists e,
    fst (authenticate_aci w apic_url username password timeout st) = Raise e
    /\ (traversal_raises_nothing login_data = true -> e = no_token)
    /\ (traversal_raises_nothing login_data = false ->
        main_error_message e = "Unexpected error: " ++ exc_str e).
Proof.
  intros Htok. unfold login_token in Htok.
  enter_login Htransport Hstatus Hbody.
  unfold traversal_raises_nothing, has_item, py_in, py_getitem, py_get,
    py_len, py_getitem0, dict_has.
  assert (Hfin : forall (e : exc) (b : bool),
             (b = true -> e = no_token) ->
             (b = false ->
              main_error_message e = "Unexpected error: " ++ exc_str e) ->
             exists e', @Raise Session e = Raise e'
                        /\ (b = true -> e' = no_token)
                        /\ (b = false ->
                            main_error_message e'
                            = "Unexpected error: " ++ exc_str e')).
  { intros e b H1 H2. exists e. auto. }
  destruct login_data as [| | | s | items | o]; cbn; try finish_with Hfin.
  - destruct (contains s "imdata"); cbn; finish_with Hfin.
  - destruct (existsb _ items); cbn; finish_with Hfin.
  - destruct (dict_get "imdata" o) as [[| | | s |[|first rest]| m]|] eqn:E1;
      cbn; rewrite ?E1; cbn; try finish_with Hfin.
    + destruct s; cbn; finish_with Hfin.
    + destruct first as [| | | | |f]; cbn; try finish_with Hfin.
      destruct (dict_get "aaaLogin" f) as [[| | | | |a]|] eqn:E2; cbn;
        try finish_with Hfin.
      destruct (dict_get "attributes" a) as [[| | | | |b]|] eqn:E3; cbn;
        try finish_with Hfin.
      rewrite Htok. cbn. finish_with Hfin.
    + destruct m; cbn; finish_with Hfin.
Qed.

End login_answer.

Lemma main_calls (w : world) :
  calls (main w) = net_calls (snd (main_fetch w initial)).
Proof.
  rewrite main_after_fetch.
  destruct (main_fetch w initial) as [[result|e] st]; simpl;
    [destruct (success_output w result)|]; reflexivity.
Qed.

(** A failed stage: one line with the error envelope, exit code 1. *)
Lemma main_fetch_raises (w : world) (e : exc) (st : state) :
  main_fetch w initial = (Raise e, st) ->
  main w = mkRun [json_dumps (JObject (error_output w (main_error_message e)))]
                 1 (net_calls st).
Proof. intros H. rewrite main_after_fetch, H. reflexivity. Qed.

(** Once the input is accepted and the URL of the login formed, the
    login is made, whatever follows. *)
Lemma main_calls_login (w : world) (input_data : json) (a : args) :
  stdin_json w = Ok input_data -> read_args input_data = Ok a ->
  url_error w (arg_apic_url a) = None ->
  exists rest,
    calls (main w)
    = login_request (arg_apic_url a) (arg_username a) (arg_password a) :: rest.
Proof.
  intros H1 H2 Hu. rewrite main_calls, (main_fetch_args w input_data a H1 H2).
  pose proof (authenticate_aci_state w (arg_apic_url a) (arg_username a)
                (arg_password a) (arg_timeout a) initial Hu) as Hs.
  destruct (authenticate_aci _ _ _ _ _ _) as [[session|e] st]; simpl in Hs;
    subst st; simpl; [|eauto].
  rewrite (query_aci_api_state _ _ _ _ _ _ Hu).
  destruct (arg_api_path a); simpl; eauto.
Qed.

(** A failed login: the error envelope, exit code 1, and the login as the
    only call. *)
Lemma main_login_fails (w : world) (input_data : json) (a : args) (e : exc) :
  stdin_json w = Ok input_data -> read_args input_data = Ok a ->
  url_error w (arg_apic_url a) = None ->
  fst (authenticate_aci w (arg_apic_url a) (arg_username a) (arg_password a)
         (arg_timeout a) initial) = Raise e ->
  main w = mkRun [json_dumps (JObject (error_output w (main_error_message e)))]
                 1
                 [login_request (arg_apic_url a) (arg_username a)
                    (arg_password a)].
Proof.
  intros H1 H2 Hu H3.
  pose proof (authenticate_aci_state w (arg_apic_url a) (arg_username a)
                (arg_password a) (arg_timeout a) initial Hu) as Hs.
  rewrite (main_fetch_raises w e
             (mkState [login_request (arg_apic_url a) (arg_username a)
                         (arg_password a)] [])); [reflexivity|].
  rewrite (main_fetch_args w input_data a H1 H2).
  destruct (authenticate_aci _ _ _ _ _ _) as [r st]; simpl in *.
  now subst.
Qed.

(** ** Outcomes of the login *)

(** The login cannot be sent, or the library raises while sending it. *)
Lemma authenticate_aci_send_fails (w : world) (apic_url : string)
    (username password : json) (timeout : Z) (e : exc) (st : state) :
  transport w (login_request apic_url username password) = Raise e ->
  fst (authenticate_aci w apic_url username password timeout st)
  = Raise (if isinstance e RequestException
           then mkExc ACIQueryError
                  ("Authentication request failed: " ++ exc_str e)
           else if isinstance e JSONDecodeError
           then mkExc ACIQueryError
                  ("Invalid JSON response during authentication: "
                     ++ exc_str e)
           else e).
Proof.
  intros Htr. unfold transport in Htr.
  cbn [url_base req_url login_request urljoin] in Htr.
  unfold authenticate_aci.
  destruct (url_error w apic_url) as [text|] eqn:Hu.
  - injection Htr as <-.
    now rewrite (py_urljoin_refused _ _ _ _ Hu), bind_lift_raise.
  - enter_stage Hu Htr.
    destruct (isinstance e RequestException); [reflexivity|].
    destruct (isinstance e JSONDecodeError); reflexivity.
Qed.

(** The login is answered with an error status. *)
Lemma authenticate_aci_bad_status (w : world) (apic_url : string)
    (username password : json) (timeout : Z) (resp : response) (st : state) :
  transport w (login_request apic_url username password) = Ok resp ->
  status_ok resp = false ->
  fst (authenticate_aci w apic_url username password timeout st)
  = Raise (mkExc ACIQueryError
             ("Authentication request failed: " ++ http_error resp)).
Proof.
  intros Htr Hst. destruct (transport_answer _ _ _ Htr) as [Hu Hn].
  cbn [url_base req_url login_request urljoin] in Hu.
  unfold authenticate_aci. enter_stage Hu Hn.
  unfold status_ok in Hst. apply negb_false_iff in Hst.
  rewrite Hst. reflexivity.
Qed.

(** ** Outcomes of the query *)

Lemma query_aci_api_send_fails (w : world) (session : Session)
    (apic_url p : string) (params : json) (e : exc) (st : state) :
  transport w (query_request session apic_url p params) = Raise e ->
  fst (query_aci_api w session apic_url (JString p) params st)
  = Raise (if isinstance e RequestException
           then mkExc ACIQueryError ("API query failed: " ++ exc_str e)
           else if isinstance e JSONDecodeError
           then mkExc ACIQueryError
                  ("Invalid JSON response from API: " ++ exc_str e)
           else e).
Proof.
  intros Htr. unfold transport in Htr.
  cbn [url_base req_url query_request urljoin] in Htr.
  unfold query_aci_api.
  destruct (url_error w apic_url) as [text|] eqn:Hu.
  - injection Htr as <-.
    now rewrite (py_urljoin_refused _ _ _ _ Hu), bind_lift_raise.
  - enter_stage Hu Htr.
    destruct (isinstance e RequestException); [reflexivity|].
    destruct (isinstance e JSONDecodeError); reflexivity.
Qed.

Lemma query_aci_api_bad_status (w : world) (session : Session)
    (apic_url p : string) (params : json) (resp : response) (st : state) :
  transport w (query_request session apic_url p params) = Ok resp ->
  status_ok resp = false ->
  fst (query_aci_api w session apic_url (JString p) params st)
  = Raise (mkExc ACIQueryError ("API query failed: " ++ http_error resp)).
Proof.
  intros Htr Hst. destruct (transport_answer _ _ _ Htr) as [Hu Hn].
  cbn [url_base req_url query_request urljoin] in Hu.
  unfold query_aci_api. enter_stage Hu Hn.
  unfold status_ok in Hst. apply negb_false_iff in Hst.
  rewrite Hst. reflexivity.
Qed.

Lemma query_aci_api_answer (w : world) (session : Session)
    (apic_url p : string) (params : json) (resp : response) (result : json)
    (st : state) :
  transport w (query_request session apic_url p params) = Ok resp ->
  status_ok resp = true ->
  body_json resp = Ok result ->
  fst (query_aci_api w session apic_url (JString p) params st) = Ok result.
Proof.
  intros Htr Hst Hbody. destruct (transport_answer _ _ _ Htr) as [Hu Hn].
  cbn [url_base req_url query_request urljoin] in Hu.
  unfold query_aci_api. enter_stage Hu Hn.
  unfold status_ok in Hst. apply negb_true_iff in Hst.
  rewrite Hst, Hbody. reflexivity.
Qed.

Lemma query_aci_api_not_str (w : world) (session : Session)
    (apic_url : string) (api_path params : json) (st : state) :
  (forall p, api_path <> JString p) ->
  query_aci_api w session apic_url api_path params st
  = (Raise (no_attribute api_path "startswith"), st).
Proof.
  intros Hn. destruct api_path; try reflexivity. now destruct (Hn s).
Qed.

(** ** From the stages to the run *)

(** After a successful login the run is the query, started from the state
    the login left. *)
Lemma main_fetch_after_login (w : world) (input_data : json) (a : args)
    (session : Session) :
  stdin_json w = Ok input_data -> read_args input_data = Ok a ->
  fst (authenticate_aci w (arg_apic_url a) (arg_username a) (arg_password a)
         (arg_timeout a) initial) = Ok session ->
  main_fetch w initial
  = query_aci_api w session (arg_apic_url a) (arg_api_path a)
      (arg_query_params a)
      (mkState [login_request (arg_apic_url a) (arg_username a)
                  (arg_password a)] []).
Proof.
  intros H1 H2 H3.
  pose proof (authenticate_aci_state w (arg_apic_url a) (arg_username a)
                (arg_password a) (arg_timeout a) initial
                (authenticate_aci_returned _ _ _ _ _ _ _ H3)) as Hs.
  rewrite (main_fetch_args w input_data a H1 H2).
  destruct (authenticate_aci _ _ _ _ _ _) as [r st]; simpl in *.
  now subst.
Qed.

(** The query for a path that is a [str], as a pair. *)
Lemma query_aci_api_pair (w : world) (session : Session) (apic_url p : string)
    (params : json) (st : state) (r : result json) :
  url_error w apic_url = None ->
  fst (query_aci_api w session apic_url (JString p) params st) = r ->
  query_aci_api w session apic_url (JString p) params st
  = (r, mkState (net_calls st ++ [query_request session apic_url p params])
                (printed st)).
Proof.
  intros Hu H.
  pose proof (query_aci_api_state w session apic_url (JString p) params st Hu)
    as Hs.
  destruct (query_aci_api _ _ _ _ _ _) as [r' st']; simpl in *.
  now subst.
Qed.


(** ** C1 *)



(** ** Reading the input *)

(** [int] on a few texts: blanks and single underscores are taken, the
    separators 28 to 31 are not blanks for it, the no-break space is, and
    a text of more than 4300 digits is refused. *)
Lemma py_int_samples :
  py_int (JString "  -1_000 ") = Ok (-1000)
  /\ int_of_str (String (ascii_of_N 31) "7") = IntInvalid
  /\ int_of_str (String (ascii_of_N 160) "7") = IntValue 7
  /\ int_of_str "1__0" = IntInvalid
  /\ int_of_str "7_" = IntInvalid
  /\ (exists n, int_of_str (nines 4300) = IntValue n)
  /\ int_of_str (nines 4301) = IntTooLong 4301.
Proof.
  repeat split; try reflexivity.
  eexists. vm_compute. reflexivity.
Qed.

Lemma read_args_missing (members : list (string * json)) :
  (exists p, In p required_params /\ dict_has p members = false) ->
  exists p,
    In p required_params /\ dict_has p members = false
    /\ read_args (JObject members)
       = Raise (mkExc ACIQueryError ("Missing required parameter: " ++ p)).
Proof.
  intros (p & Hin & Hp).
  unfold read_args, rbind. cbn [check_required required_params py_in rbind].
  destruct (dict_has "apic_url" members) eqn:E1;
    [|exists "apic_url"; simpl; auto].
  destruct (dict_has "username" members) eqn:E2;
    [|exists "username"; simpl; auto].
  destruct (dict_has "password" members) eqn:E3;
    [|exists "password"; simpl; auto].
  destruct (dict_has "api_path" members) eqn:E4;
    [|exists "api_path"; simpl; auto 6].
  simpl in Hin. destruct Hin as [<-|[<-|[<-|[<-|[]]]]]; congruence.
Qed.

Lemma dict_has_get (k : string) (members : list (string * json)) (v : json) :
  dict_get k members = Some v -> dict_has k members = true.
Proof. intros H. unfold dict_has. now rewrite H. Qed.

Lemma read_args_object (members : list (string * json)) (apic_url : json)
    (username password api_path : json) :
  dict_get "apic_url" members = Some apic_url ->
  dict_get "username" members = Some username ->
  dict_get "password" members = Some password ->
  dict_get "api_path" members = Some api_path ->
  read_args (JObject members) =
  (url <-- py_rstrip apic_url ;;
   timeout <-- py_int (timeout_of members) ;;
   Ok (mkArgs url username password api_path timeout (query_params_of members))).
Proof.
  intros H1 H2 H3 H4.
  unfold read_args, rbind.
  cbn [check_required required_params py_in py_getitem py_get rbind].
  rewrite (dict_has_get _ _ _ H1), (dict_has_get _ _ _ H2),
    (dict_has_get _ _ _ H3), (dict_has_get _ _ _ H4), H1, H2, H3, H4.
  reflexivity.
Qed.

(** ** C3 *)

(** C3.  An input object that lacks one of the four required keys gets
    the error envelope (status [error], [json_data] the text of an empty
    object, a message naming a missing key) and exit code 1, and no call is
    made. *)
Theorem C3_missing_key_rejected_without_network (w : world)
    (members : list (string * json)) :
  stdin_json w = Ok (JObject members) ->
  (exists p, In p required_params /\ dict_has p members = false) ->
  exists p envelope,
    In p required_params /\ dict_has p members = false
    /\ stdout (main w) = [json_dumps (JObject envelope)]
    /\ json_loads (json_dumps (JObject envelope)) = Ok (JObject envelope)
    /\ dict_get "status" envelope = Some (JString "error")
    /\ dict_get "json_data" envelope = Some (JString "{}")
    /\ dict_get "error_message" envelope
       = Some (JString ("Missing required parameter: " ++ p))
    /\ exit_code (main w) = 1
    /\ calls (main w) = [].
Proof.
  intros Hin Hmiss.
  destruct (read_args_missing members Hmiss) as (p & Hp & Hd & Hr).
  exists p, (error_output w ("Missing required parameter: " ++ p)).
  rewrite (main_fetch_raises w _ initial (main_fetch_bad_args w _ _ Hin Hr)).
  repeat split; try assumption; try reflexivity.
  apply error_output_reads_back.
Qed.

Lemma C3_witness :
  exists p envelope,
    In p required_params
    /\ dict_has p [("apic_url", JString "https://apic.example.net");
                   ("username", JString "admin");
                   ("api_path", JString "/api/class/fvTenant.json")] = false
    /\ stdout (main missing_password_world) = [json_dumps (JObject envelope)]
    /\ json_loads (json_dumps (JObject envelope)) = Ok (JObject envelope)
    /\ dict_get "status" envelope = Some (JString "error")
    /\ dict_get "json_data" envelope = Some (JString "{}")
    /\ dict_get "error_message" envelope
       = Some (JString ("Missing required parameter: " ++ p))
    /\ exit_code (main missing_password_world) = 1
    /\ calls (main missing_password_world) = [].
Proof.
  apply (C3_missing_key_rejected_without_network missing_password_world _
           eq_refl).
  exists "password". split; [simpl; auto | reflexivity].
Defined.

(** ** C4 *)

(** C4, the claim as stated fails: with [username] set to [null] the
    login is made, carrying the [null], and the run goes on to the query
    and ends with exit code 0. *)
Lemma C4_null_username_reaches_the_network :
  stdin_json null_username_world
  = Ok (JObject [("apic_url", JString "https://apic.example.net");
                 ("username", JNull);
                 ("password", JString "secret");
                 ("api_path", JString "/api/class/fvTenant.json")])
  /\ calls (main null_username_world)
     = [login_request "https://apic.example.net" JNull (JString "secret");
        query_request (logged_in 30 (JString "T0K")) "https://apic.example.net"
          "/api/class/fvTenant.json" (JObject [])]
  /\ exit_code (main null_username_world) = 0.
Proof. repeat split; reflexivity. Qed.

(** C4, amended.  With the four required keys present: a [null]
    [apic_url] is rejected before any call, as an unexpected error; and
    whenever [apic_url] is a string, the timeout converts to an integer
    and the controller answers the login made for the username and the
    password as they are, [null] included, that login is the first call
    of the run, whatever [api_path] is. *)
Theorem C4_only_null_apic_url_stops_before_network :
  (forall (w : world) (members : list (string * json))
          (username password api_path : json),
      stdin_json w = Ok (JObject members) ->
      dict_get "apic_url" members = Some JNull ->
      dict_get "username" members = Some username ->
      dict_get "password" members = Some password ->
      dict_get "api_path" members = Some api_path ->
      main w
      = mkRun [json_dumps
                 (JObject (error_output w
                    "Unexpected error: 'NoneType' object has no attribute 'rstrip'"))]
              1 [])
  /\ (forall (w : world) (members : list (string * json)) (url : string)
             (username password api_path : json) (timeout : Z)
             (resp : response),
         stdin_json w = Ok (JObject members) ->
         dict_get "apic_url" members = Some (JString url) ->
         dict_get "username" members = Some username ->
         dict_get "password" members = Some password ->
         dict_get "api_path" members = Some api_path ->
         py_int (timeout_of members) = Ok timeout ->
         transport w (login_request (rstrip_slash url) username password)
         = Ok resp ->
         exists rest,
           calls (main w)
           = login_request (rstrip_slash url) username password :: rest).
Proof.
  split.
  - intros w members username password api_path Hin H1 H2 H3 H4.
    pose proof (read_args_object members _ _ _ _ H1 H2 H3 H4) as Hr.
    simpl in Hr.
    now rewrite (main_fetch_raises w _ initial (main_fetch_bad_args w _ _ Hin Hr)).
  - intros w members url username password api_path timeout resp
      Hin H1 H2 H3 H4 Ht Htr.
    pose proof (read_args_object members _ _ _ _ H1 H2 H3 H4) as Hr.
    simpl in Hr. rewrite Ht in Hr. simpl in Hr.
    destruct (transport_answer _ _ _ Htr) as [Hu _].
    exact (main_calls_login w _ _ Hin Hr Hu).
Qed.

Lemma C4_witness :
  main all_null_world
  = mkRun [json_dumps
             (JObject (error_output all_null_world
                "Unexpected error: 'NoneType' object has no attribute 'rstrip'"))]
          1 []
  /\ exists rest,
       calls (main null_credentials_world)
       = login_request "https://apic.example.net" JNull JNull :: rest.
Proof.
  split.
  - apply (proj1 C4_only_null_apic_url_stops_before_network all_null_world
             [("apic_url", JNull); ("username", JNull);
              ("password", JNull); ("api_path", JNull)]
             JNull JNull JNull); reflexivity.
  - apply (proj2 C4_only_null_apic_url_stops_before_network
             null_credentials_world
             [("apic_url", JString "https://apic.example.net");
              ("username", JNull); ("password", JNull); ("api_path", JNull)]
             "https://apic.example.net" JNull JNull JNull 30
             (ok_response (login_body (JString "T0K"))));
      reflexivity.
Defined.

(** ** C5 and C10 *)

(** C5, the claim as stated fails: a login answer [{"imdata": null}] is
    valid JSON without a non-empty [imdata] sequence, and the run fails
    with another message. *)
Lemma C5_null_imdata_gives_another_message :
  transport null_login_world
    (login_request "https://apic.example.net" (JString "admin")
       (JString "secret"))
  = Ok (ok_response (JObject [("imdata", JNull)]))
  /\ main null_login_world
     = mkRun [json_dumps
                (JObject (error_output null_login_world
                   "Unexpected error: object of type 'NoneType' has no len()"))]
             1
             [login_request "https://apic.example.net" (JString "admin")
                (JString "secret")]
  /\ "Unexpected error: object of type 'NoneType' has no len()"
     <> "Authentication failed - no token received".
Proof. repeat split; try reflexivity. discriminate. Qed.

(** C5, amended.  For an accepted input and a login answer that passes the
    status check with a JSON body that has no token at the path, the run
    ends with the error envelope, exit code 1 and the login as its only
    call; the message is the one for a missing token when the traversal of
    the body raises nothing, and [Unexpected error: ] followed by the text
    of the exception the traversal raises otherwise. *)
Theorem C5_no_token_no_query (w : world) (input_data : json) (a : args)
    (resp : response) (login_data : json) :
  stdin_json w = Ok input_data ->
  read_args input_data = Ok a ->
  transport w (login_request (arg_apic_url a) (arg_username a) (arg_password a))
  = Ok resp ->
  status_ok resp = true ->
  body_json resp = Ok login_data ->
  login_token login_data = None ->
  exists text,
    main w
    = mkRun [json_dumps
               (JObject (error_output w
                  (if traversal_raises_nothing login_data
                   then "Authentication failed - no token received"
                   else "Unexpected error: " ++ text)))]
            1
            [login_request (arg_apic_url a) (arg_username a) (arg_password a)]
    /\ dict_get "status"
         (error_output w
            (if traversal_raises_nothing login_data
             then "Authentication failed - no token received"
             else "Unexpected error: " ++ text))
       = Some (JString "error").
Proof.
  intros Hin Hargs Htr Hst Hbody Hnone.
  destruct (authenticate_aci_without_token w _ _ _ (arg_timeout a) resp
              login_data Htr Hst Hbody initial Hnone) as (e & He & Hclean & Hraw).
  destruct (transport_answer _ _ _ Htr) as [Hu _].
  cbn [url_base req_url login_request urljoin] in Hu.
  exists (exc_str e). split; [|reflexivity].
  rewrite (main_login_fails w _ _ _ Hin Hargs Hu He).
  destruct (traversal_raises_nothing login_data).
  - now rewrite (Hclean eq_refl).
  - now rewrite (Hraw eq_refl).
Qed.

Lemma C5_witness :
  (exists text,
      main empty_login_world
      = mkRun [json_dumps
                 (JObject (error_output empty_login_world
                    "Authentication failed - no token received"))]
              1
              [login_request "https://apic.example.net" (JString "admin")
                 (JString "secret")]
      /\ dict_get "status"
           (error_output empty_login_world
              (if traversal_raises_nothing (JObject [])
               then "Authentication failed - no token received"
               else "Unexpected error: " ++ text))
         = Some (JString "error"))
  /\ (exists text,
         main null_login_world
         = mkRun [json_dumps
                    (JObject (error_output null_login_world
                       ("Unexpected error: " ++ text)))]
                 1
                 [login_request "https://apic.example.net" (JString "admin")
                    (JString "secret")]
         /\ dict_get "status"
              (error_output null_login_world
                 (if traversal_raises_nothing (JObject [("imdata", JNull)])
                  then "Authentication failed - no token received"
                  else "Unexpected error: " ++ text))
            = Some (JString "error")).
Proof.
  split.
  - apply (C5_no_token_no_query empty_login_world sample_input sample_args
             (ok_response (JObject [])) (JObject [])); reflexivity.
  - apply (C5_no_token_no_query null_login_world sample_input sample_args
             (ok_response (JObject [("imdata", JNull)]))
             (JObject [("imdata", JNull)])); reflexivity.
Defined.

(** C10.  A token that is there but falsy (the empty string, [null], 0,
    [false], an empty sequence or object) gives the same run as a missing
    token: the message for a missing token, exit code 1, no query. *)
Theorem C10_falsy_token_is_no_token (w : world) (input_data : json) (a : args)
    (resp : response) (login_data token : json) :
  stdin_json w = Ok input_data ->
  read_args input_data = Ok a ->
  transport w (login_request (arg_apic_url a) (arg_username a) (arg_password a))
  = Ok resp ->
  status_ok resp = true ->
  body_json resp = Ok login_data ->
  login_token login_data = Some token ->
  truthy token = false ->
  main w
  = mkRun [json_dumps
             (JObject (error_output w
                "Authentication failed - no token received"))]
          1
          [login_request (arg_apic_url a) (arg_username a) (arg_password a)].
Proof.
  intros Hin Hargs Htr Hst Hbody Htok Hfalsy.
  pose proof (authenticate_aci_token w _ _ _ (arg_timeout a) resp login_data
                Htr Hst Hbody token initial Htok) as He.
  rewrite Hfalsy in He.
  destruct (transport_answer _ _ _ Htr) as [Hu _].
  cbn [url_base req_url login_request urljoin] in Hu.
  exact (main_login_fails w _ _ _ Hin Hargs Hu He).
Qed.

Lemma C10_witness :
  main empty_token_world
  = mkRun [json_dumps
             (JObject (error_output empty_token_world
                "Authentication failed - no token received"))]
          1
          [login_request "https://apic.example.net" (JString "admin")
             (JString "secret")].
Proof.
  apply (C10_falsy_token_is_no_token empty_token_world sample_input
           sample_args
           (ok_response (login_body (JString EmptyString)))
           (login_body (JString EmptyString)) (JString EmptyString));
    reflexivity.
Defined.

(** ** C2 *)

(** C2, the claim as stated fails: both stages succeed and the query
    answers [{"imdata": null}], a value without a length; the run ends with
    the error envelope and exit code 1. *)
Lemma C2_null_imdata_run_fails :
  fst (main_fetch null_imdata_world initial) = Ok (JObject [("imdata", JNull)])
  /\ main null_imdata_world
     = mkRun [json_dumps
                (JObject (error_output null_imdata_world
                   "Unexpected error: object of type 'NoneType' has no len()"))]
             1
             [login_request "https://apic.example.net" (JString "admin")
                (JString "secret");
              query_request (logged_in 5 (JString "T0K"))
                "https://apic.example.net" "node/class/fvTenant.json"
                (JObject [])]
  /\ dict_get "status"
       (error_output null_imdata_world
          "Unexpected error: object of type 'NoneType' has no len()")
     = Some (JString "error").
Proof. repeat split; reflexivity. Qed.

(** C2, amended.  When both stages succeed, the run prints one envelope.
    If the parsed answer of the query can be formatted (an object whose
    [imdata], if present, is a list, a string or an object; or a list or a
    string in which neither [imdata] nor [totalCount] occurs), the
    envelope has status [success] and the exit code is 0; [json_data]
    reads back as the answer; [record_count] is there exactly when the
    answer is an object with [imdata], with the decimal text of its
    length; [total_count] is there exactly when the answer is an object
    with [totalCount], with its [str]; and for the sample answer both
    counts are 2.  Any other answer gives the error envelope and exit
    code 1. *)
Theorem C2_success_envelope (w : world) (result : json) (st : state) :
  main_fetch w initial = (Ok result, st) ->
  keys_unique result = true ->
  exists envelope,
    stdout (main w) = [json_dumps (JObject envelope)]
    /\ json_loads (json_dumps (JObject envelope)) = Ok (JObject envelope)
    /\ if formattable result
       then
         exit_code (main w) = 0
         /\ dict_get "status" envelope = Some (JString "success")
         /\ (exists text, dict_get "json_data" envelope = Some (JString text)
                          /\ json_loads text = Ok result)
         /\ dict_get "record_count" envelope
            = match result with
              | JObject members =>
                  match dict_get "imdata" members with
                  | Some imdata =>
                      match py_len imdata with
                      | Ok n => Some (JString (string_of_Z n))
                      | Raise _ => None
                      end
                  | None => None
                  end
              | _ => None
              end
         /\ dict_get "total_count" envelope
            = match result with
              | JObject members =>
                  match dict_get "totalCount" members with
                  | Some totalCount => Some (JString (py_str totalCount))
                  | None => None
                  end
              | _ => None
              end
         /\ (result = sample_result ->
             dict_get "record_count" envelope = Some (JString "2")
             /\ dict_get "total_count" envelope = Some (JString "2"))
       else
         exit_code (main w) = 1
         /\ dict_get "status" envelope = Some (JString "error")
         /\ dict_get "json_data" envelope = Some (JString "{}").
Proof.
  intros Hfetch Hkeys.
  rewrite main_after_fetch, Hfetch.
  destruct (formattable result) eqn:Hf.
  - destruct (success_output_formattable w result Hf)
      as (envelope & Hout & Hrc & Htc).
    exists envelope. rewrite Hout.
    destruct (success_output_members w _ _ Hout) as (Hk & Hj & Hs & _).
    split; [reflexivity|].
    split; [now apply json_loads_dumps|].
    split; [reflexivity|].
    split; [assumption|].
    split; [exists (json_dumps result);
            split; [assumption | now apply json_loads_dumps]|].
    split; [assumption|].
    split; [assumption|].
    intros ->. rewrite Hrc, Htc. split; reflexivity.
  - destruct (success_output_unformattable w result Hf) as (e & Hout).
    exists (error_output w (main_error_message e)). rewrite Hout.
    split; [reflexivity|].
    split; [apply error_output_reads_back|].
    repeat split.
Qed.

Lemma C2_witness :
  (exists envelope,
      stdout (main sample_world) = [json_dumps (JObject envelope)]
      /\ json_loads (json_dumps (JObject envelope)) = Ok (JObject envelope)
      /\ exit_code (main sample_world) = 0
      /\ dict_get "status" envelope = Some (JString "success")
      /\ (exists text, dict_get "json_data" envelope = Some (JString text)
                       /\ json_loads text = Ok sample_result)
      /\ dict_get "record_count" envelope = Some (JString "2")
      /\ dict_get "total_count" envelope = Some (JString "2")
      /\ (sample_result = sample_result ->
          dict_get "record_count" envelope = Some (JString "2")
          /\ dict_get "total_count" envelope = Some (JString "2")))
  /\ (exists envelope,
         stdout (main null_imdata_world) = [json_dumps (JObject envelope)]
         /\ json_loads (json_dumps (JObject envelope)) = Ok (JObject envelope)
         /\ exit_code (main null_imdata_world) = 1
         /\ dict_get "status" envelope = Some (JString "error")
         /\ dict_get "json_data" envelope = Some (JString "{}")).
Proof.
  split.
  - apply (C2_success_envelope sample_world sample_result
             (mkState
                [login_request "https://apic.example.net" (JString "admin")
                   (JString "secret");
                 query_request (logged_in 5 (JString "T0K"))
                   "https://apic.example.net" "node/class/fvTenant.json"
                   (JObject [])]
                [])); reflexivity.
  - apply (C2_success_envelope null_imdata_world (JObject [("imdata", JNull)])
             (mkState
                [login_request "https://apic.example.net" (JString "admin")
                   (JString "secret");
                 query_request (logged_in 5 (JString "T0K"))
                   "https://apic.example.net" "node/class/fvTenant.json"
                   (JObject [])]
                [])); reflexivity.
Defined.

(** ** C6 and C7 *)

(** C6.  The query stage requests the normalized path: a path that starts
    with [/api] is kept, another that starts with [/] gets [/api] in front,
    any other gets [/api/] in front.  The one call of the stage is for
    that path, and it is made unless [urljoin] refuses the base. *)
Theorem C6_api_path_normalization :
  (forall p,
      normalize_api_path p
      = if startswith p "/api" then p
        else if startswith p "/" then "/api" ++ p
        else "/api/" ++ p)
  /\ normalize_api_path "foo/bar" = "/api/foo/bar"
  /\ normalize_api_path "/foo/bar" = "/api/foo/bar"
  /\ normalize_api_path "/api/foo" = "/api/foo"
  /\ (forall w session apic_url p params st,
         net_calls (snd (query_aci_api w session apic_url (JString p) params st))
         = match url_error w apic_url with
           | None =>
               (net_calls st
                ++ [mkRequest GET (urljoin apic_url (normalize_api_path p)) None
                      (Some params) None (verify session) (headers session)])%list
           | Some _ => net_calls st
           end).
Proof.
  repeat split.
  - intros p. unfold normalize_api_path. now destruct (startswith p "/api").
  - intros. destruct (url_error w apic_url) as [text|] eqn:Hu.
    + now rewrite (query_aci_api_refused _ _ _ _ _ _ _ Hu).
    + now rewrite (query_aci_api_state _ _ _ _ _ _ Hu).
Qed.

(** C7, the claim as stated fails: [/apifoo] starts with [/api], is left
    as it is, and is neither [/api] nor under [/api/]. *)
Lemma C7_apifoo_outside_namespace :
  normalize_api_path "/apifoo" = "/apifoo"
  /\ "/apifoo" <> "/api"
  /\ startswith "/apifoo" "/api/" = false.
Proof. repeat split. discriminate. Qed.

(** C7, amended.  The normalized path always starts with [/api]. *)
Theorem C7_normalized_path_starts_with_api (p : string) :
  startswith (normalize_api_path p) "/api" = true.
Proof.
  unfold normalize_api_path.
  destruct (startswith p "/api") eqn:E; simpl; [assumption|].
  destruct (startswith p "/"); destruct p; reflexivity.
Qed.

(** ** C8 *)

(** C8.  A successful login returns a session that has [verify] off,
    holds the timeout as an attribute and carries the cookie with the
    token; but no call of any run carries a timeout, the login
    and the query of the sample run included. *)
Theorem C8_timeout_never_reaches_the_calls :
  (forall w, Forall (fun r => req_timeout r = None) (calls (main w)))
  /\ fst (authenticate_aci sample_world "https://apic.example.net"
            (JString "admin") (JString "secret") 5 initial)
     = Ok (mkSession false (Some 5) [("Cookie", "APIC-cookie=T0K")])
  /\ arg_timeout sample_args = 5
  /\ read_args sample_input = Ok sample_args
  /\ map req_timeout (calls (main sample_world)) = [None; None]
  /\ map req_verify (calls (main sample_world)) = [false; false]
  /\ map req_headers (calls (main sample_world))
     = [[]; [("Cookie", "APIC-cookie=T0K")]].
Proof.
  split; [|repeat split; reflexivity].
  intros w. rewrite main_calls. apply main_fetch_calls_without_timeout.
Qed.

(** The session of a successful login, for any token. *)
Lemma authenticate_aci_session (w : world) (apic_url : string)
    (username password : json) (timeout : Z) (resp : response)
    (login_data token : json) (st : state) :
  transport w (login_request apic_url username password) = Ok resp ->
  status_ok resp = true ->
  body_json resp = Ok login_data ->
  login_token login_data = Some token ->
  truthy token = true ->
  fst (authenticate_aci w apic_url username password timeout st)
  = Ok (mkSession false (Some timeout)
          [("Cookie", "APIC-cookie=" ++ py_str token)]).
Proof.
  intros Htr Hst Hbody Htok Htrue.
  rewrite (authenticate_aci_token w _ _ _ timeout resp login_data Htr Hst Hbody
             token st Htok), Htrue.
  reflexivity.
Qed.

(** ** C9 *)

(** What each stage makes of a body that [Response.json] cannot read:
    the clause for [RequestException] comes first and takes every
    exception of that class. *)
Lemma authenticate_aci_bad_body (w : world) (apic_url : string)
    (username password : json) (timeout : Z) (resp : response) (e : exc)
    (st : state) :
  transport w (login_request apic_url username password) = Ok resp ->
  status_ok resp = true ->
  body_json resp = Raise e ->
  fst (authenticate_aci w apic_url username password timeout st)
  = Raise (if isinstance e RequestException
           then mkExc ACIQueryError
                  ("Authentication request failed: " ++ exc_str e)
           else if isinstance e JSONDecodeError
           then mkExc ACIQueryError
                  ("Invalid JSON response during authentication: "
                     ++ exc_str e)
           else e).
Proof.
  intros Htr Hst Hbody. enter_login Htr Hst Hbody. cbn.
  destruct (isinstance e RequestException); [reflexivity|].
  destruct (isinstance e JSONDecodeError); reflexivity.
Qed.

Lemma query_aci_api_bad_body (w : world) (session : Session)
    (apic_url p : string) (params : json) (resp : response) (e : exc)
    (st : state) :
  transport w (query_request session apic_url p params) = Ok resp ->
  status_ok resp = true ->
  body_json resp = Raise e ->
  fst (query_aci_api w session apic_url (JString p) params st)
  = Raise (if isinstance e RequestException
           then mkExc ACIQueryError ("API query failed: " ++ exc_str e)
           else if isinstance e JSONDecodeError
           then mkExc ACIQueryError
                  ("Invalid JSON response from API: " ++ exc_str e)
           else e).
Proof.
  intros Htr Hst Hbody. destruct (transport_answer _ _ _ Htr) as [Hu Hn].
  cbn [url_base req_url query_request urljoin] in Hu.
  unfold query_aci_api. enter_stage Hu Hn.
  unfold status_ok in Hst. apply negb_true_iff in Hst.
  rewrite Hst, Hbody. cbn.
  destruct (isinstance e RequestException); [reflexivity|].
  destruct (isinstance e JSONDecodeError); reflexivity.
Qed.

(** With the exception of the standard library, which is not a
    [RequestException], the stages give their invalid-JSON messages. *)
Lemma invalid_json_messages_for_plain_decode_error (msg : string) :
  let e := mkExc JSONDecodeError msg in
  (if isinstance e RequestException
   then mkExc ACIQueryError ("Authentication request failed: " ++ exc_str e)
   else if isinstance e JSONDecodeError
   then mkExc ACIQueryError
          ("Invalid JSON response during authentication: " ++ exc_str e)
   else e)
  = mkExc ACIQueryError ("Invalid JSON response during authentication: " ++ msg)
  /\ (if isinstance e RequestException
      then mkExc ACIQueryError ("API query failed: " ++ exc_str e)
      else if isinstance e JSONDecodeError
      then mkExc ACIQueryError ("Invalid JSON response from API: " ++ exc_str e)
      else e)
     = mkExc ACIQueryError ("Invalid JSON response from API: " ++ msg).
Proof. split; reflexivity. Qed.

(** C9.  With the exception [Response.json] raises since requests 2.27,
    a 200 answer whose body is not JSON gives the request-failed message
    of the stage, at the login and at the query, and not its invalid-JSON
    message. *)
Theorem C9_invalid_json_reported_as_request_failure :
  status_ok (mkResponse 200 EmptyString
               (Raise (mkExc RequestsJSONDecodeError not_json))) = true
  /\ main html_login_world
     = mkRun [json_dumps
                (JObject (error_output html_login_world
                   ("Authentication request failed: " ++ not_json)))]
             1
             [login_request "https://apic.example.net" (JString "admin")
                (JString "secret")]
  /\ main html_query_world
     = mkRun [json_dumps
                (JObject (error_output html_query_world
                   ("API query failed: " ++ not_json)))]
             1
             [login_request "https://apic.example.net" (JString "admin")
                (JString "secret");
              query_request (logged_in 5 (JString "T0K"))
                "https://apic.example.net" "node/class/fvTenant.json"
                (JObject [])].
Proof. repeat split; reflexivity. Qed.

(** * Further properties of the script *)

(** ** Input that is refused before the network *)

(** X1.  When standard input is not JSON the run prints the error
    envelope with the message for invalid input, exits with code 1 and
    makes no call. *)
Theorem X1_invalid_stdin (w : world) (msg : string) :
  stdin_json w = Raise (mkExc JSONDecodeError msg) ->
  main w
  = mkRun [json_dumps
             (JObject (error_output w ("Invalid input JSON: " ++ msg)))]
          1 [].
Proof.
  intros H.
  rewrite (main_fetch_raises w (mkExc JSONDecodeError msg) initial);
    [reflexivity|].
  unfold main_fetch, bind, lift. now rewrite H.
Qed.

Lemma X1_witness :
  main garbage_stdin_world
  = mkRun [json_dumps
             (JObject (error_output garbage_stdin_world
                ("Invalid input JSON: " ++ not_json)))]
          1 [].
Proof. apply (X1_invalid_stdin garbage_stdin_world not_json). reflexivity. Defined.

Lemma read_args_not_object (v : json) :
  (forall members, v <> JObject members) -> exists e, read_args v = Raise e.
Proof.
  intros Hn. unfold read_args, rbind.
  cbn [check_required required_params rbind].
  destruct v as [| b | n | s | items | members]; cbn; eauto.
  - repeat match goal with
           | |- context [contains s ?k] => destruct (contains s k); cbn
           end; eauto.
  - repeat match goal with
           | |- context [existsb ?f items] => destruct (existsb f items); cbn
           end; eauto.
  - now destruct (Hn members).
Qed.

(** X2.  Input that is JSON but not an object (a list, a string, a number,
    [true], [false], [null]) is refused: the error envelope, exit code 1,
    and no call. *)
Theorem X2_input_not_an_object (w : world) (v : json) :
  stdin_json w = Ok v ->
  (forall members, v <> JObject members) ->
  exists msg,
    main w = mkRun [json_dumps (JObject (error_output w msg))] 1 [].
Proof.
  intros Hin Hn. destruct (read_args_not_object v Hn) as (e & He).
  exists (main_error_message e).
  exact (main_fetch_raises w e initial (main_fetch_bad_args w v e Hin He)).
Qed.

Lemma X2_witness :
  exists msg,
    main list_input_world
    = mkRun [json_dumps (JObject (error_output list_input_world msg))] 1 [].
Proof.
  apply (X2_input_not_an_object list_input_world (JArray []));
    [reflexivity | discriminate].
Defined.

(** X3.  The key named in the message for a missing parameter is the
    first one missing in the order [apic_url], [username], [password],
    [api_path]. *)
Theorem X3_first_missing_key_is_named (w : world)
    (members : list (string * json)) (p : string) :
  stdin_json w = Ok (JObject members) ->
  find (fun k => negb (dict_has k members)) required_params = Some p ->
  main w
  = mkRun [json_dumps
             (JObject (error_output w ("Missing required parameter: " ++ p)))]
          1 [].
Proof.
  intros Hin Hfind.
  rewrite (main_fetch_raises w
             (mkExc ACIQueryError ("Missing required parameter: " ++ p))
             initial); [reflexivity|].
  apply (main_fetch_bad_args w _ _ Hin).
  unfold read_args, rbind.
  cbn [check_required required_params py_in rbind find] in *.
  repeat match goal with
         | H : context [dict_has ?k members] |- _ =>
             destruct (dict_has k members); cbn in H
         end;
    try discriminate; injection Hfind as <-; reflexivity.
Qed.

Lemma X3_witness :
  main two_keys_world
  = mkRun [json_dumps
             (JObject (error_output two_keys_world
                ("Missing required parameter: " ++ "apic_url")))]
          1 [].
Proof.
  apply (X3_first_missing_key_is_named two_keys_world
           [("username", JString "admin");
            ("api_path", JString "/api/class/fvTenant.json")] "apic_url");
    reflexivity.
Defined.

(** X4.  With the four required keys present, an [apic_url] that is not
    a string (a number, a list, an object, [true], [null]) is refused
    before any call, as an unexpected error that names its type. *)
Theorem X4_apic_url_not_a_string (w : world) (members : list (string * json))
    (apic_url username password api_path : json) :
  stdin_json w = Ok (JObject members) ->
  dict_get "apic_url" members = Some apic_url ->
  dict_get "username" members = Some username ->
  dict_get "password" members = Some password ->
  dict_get "api_path" members = Some api_path ->
  (forall s, apic_url <> JString s) ->
  main w
  = mkRun [json_dumps
             (JObject (error_output w
                ("Unexpected error: '" ++ type_name apic_url
                   ++ "' object has no attribute 'rstrip'")))]
          1 [].
Proof.
  intros Hin H1 H2 H3 H4 Hn.
  pose proof (read_args_object members _ _ _ _ H1 H2 H3 H4) as Hr.
  rewrite (main_fetch_raises w (no_attribute apic_url "rstrip") initial);
    [reflexivity|].
  apply (main_fetch_bad_args w _ _ Hin). rewrite Hr.
  destruct apic_url; try reflexivity. now destruct (Hn s).
Qed.

Lemma X4_witness :
  main numeric_url_world
  = mkRun [json_dumps
             (JObject (error_output numeric_url_world
                ("Unexpected error: '" ++ type_name (JInt 5)
                   ++ "' object has no attribute 'rstrip'")))]
          1 [].
Proof.
  apply (X4_apic_url_not_a_string numeric_url_world
           [("apic_url", JInt 5); ("username", JString "admin");
            ("password", JString "secret");
            ("api_path", JString "class/fvTenant.json"); ("timeout", JInt 5)]
           (JInt 5) (JString "admin") (JString "secret")
           (JString "class/fvTenant.json"));
    try reflexivity; discriminate.
Defined.

Lemma py_int_raises (v : json) (e : exc) :
  py_int v = Raise e ->
  main_error_message e = "Unexpected error: " ++ exc_str e.
Proof.
  destruct v as [| b | n | s | items | members]; simpl;
    try (destruct (int_of_str s)); intros H; try discriminate;
    injection H as <-; reflexivity.
Qed.

(** X5.  With the four required keys present and [apic_url] a string, a
    [timeout] that [int] refuses is an unexpected error before any call. *)
Theorem X5_timeout_not_an_integer (w : world) (members : list (string * json))
    (url : string) (username password api_path : json) (e : exc) :
  stdin_json w = Ok (JObject members) ->
  dict_get "apic_url" members = Some (JString url) ->
  dict_get "username" members = Some username ->
  dict_get "password" members = Some password ->
  dict_get "api_path" members = Some api_path ->
  py_int (timeout_of members) = Raise e ->
  main w
  = mkRun [json_dumps
             (JObject (error_output w ("Unexpected error: " ++ exc_str e)))]
          1 [].
Proof.
  intros Hin H1 H2 H3 H4 Ht.
  pose proof (read_args_object members _ _ _ _ H1 H2 H3 H4) as Hr.
  simpl in Hr. rewrite Ht in Hr. simpl in Hr.
  rewrite (main_fetch_raises w e initial (main_fetch_bad_args w _ _ Hin Hr)).
  now rewrite (py_int_raises _ _ Ht).
Qed.

Lemma X5_witness :
  main bad_timeout_world
  = mkRun [json_dumps
             (JObject (error_output bad_timeout_world
                ("Unexpected error: "
                   ++ "invalid literal for int() with base 10: 'soon'")))]
          1 [].
Proof.
  apply (X5_timeout_not_an_integer bad_timeout_world
           [("apic_url", JString "https://apic.example.net");
            ("username", JString "admin"); ("password", JString "secret");
            ("api_path", JString "class/fvTenant.json");
            ("timeout", JString "soon")]
           "https://apic.example.net" (JString "admin") (JString "secret")
           (JString "class/fvTenant.json")
           (mkExc ValueError "invalid literal for int() with base 10: 'soon'"));
    reflexivity.
Defined.

(** ** Failures of the login *)

(** X6.  A login answered with a status from 400 to 599 gives the
    request-failed message of the login with the text of the HTTP error,
    exit code 1, and no query. *)
Theorem X6_login_error_status (w : world) (input_data : json) (a : args)
    (resp : response) :
  stdin_json w = Ok input_data ->
  read_args input_data = Ok a ->
  transport w (login_request (arg_apic_url a) (arg_username a) (arg_password a))
  = Ok resp ->
  status_ok resp = false ->
  main w
  = mkRun [json_dumps
             (JObject (error_output w
                ("Authentication request failed: " ++ http_error resp)))]
          1
          [login_request (arg_apic_url a) (arg_username a) (arg_password a)].
Proof.
  intros Hin Hargs Htr Hst.
  exact (main_login_fails w _ _ _ Hin Hargs
           (proj1 (transport_answer _ _ _ Htr))
           (authenticate_aci_bad_status w _ _ _ (arg_timeout a) resp initial
              Htr Hst)).
Qed.

Lemma X6_witness :
  main login_401_world
  = mkRun [json_dumps
             (JObject (error_output login_401_world
                ("Authentication request failed: "
                   ++ "401 Client Error: Unauthorized")))]
          1
          [login_request (arg_apic_url sample_args) (arg_username sample_args)
             (arg_password sample_args)].
Proof.
  apply (X6_login_error_status login_401_world sample_input sample_args
           (mkResponse 401 "401 Client Error: Unauthorized" (Ok (JObject []))));
    reflexivity.
Defined.

(** X7.  When sending the login raises an exception of the library
    (connection refused, timeout, bad URL) the run gives the
    request-failed message of the login with the text of that exception,
    exit code 1, and no query. *)
Theorem X7_login_cannot_be_sent (w : world) (input_data : json) (a : args)
    (e : exc) :
  stdin_json w = Ok input_data ->
  read_args input_data = Ok a ->
  transport w (login_request (arg_apic_url a) (arg_username a) (arg_password a))
  = Raise e ->
  isinstance e RequestException = true ->
  main w
  = mkRun [json_dumps
             (JObject (error_output w
                ("Authentication request failed: " ++ exc_str e)))]
          1
          [login_request (arg_apic_url a) (arg_username a) (arg_password a)].
Proof.
  intros Hin Hargs Htr He.
  pose proof (authenticate_aci_send_fails w _ _ _ (arg_timeout a) e initial Htr)
    as Hf.
  rewrite He in Hf.
  exact (main_login_fails w _ _ _ Hin Hargs
           (proj1 (transport_request_error _ _ _ Htr He)) Hf).
Qed.

Lemma X7_witness :
  main login_down_world
  = mkRun [json_dumps
             (JObject (error_output login_down_world
                ("Authentication request failed: " ++ "Connection refused")))]
          1
          [login_request (arg_apic_url sample_args) (arg_username sample_args)
             (arg_password sample_args)].
Proof.
  apply (X7_login_cannot_be_sent login_down_world sample_input sample_args
           (mkExc ConnectionError "Connection refused"));
    reflexivity.
Defined.

(** ** After a successful login *)

(** A failed query: the error envelope, exit code 1, the login and the
    query as the two calls. *)
Lemma main_query_fails (w : world) (input_data : json) (a : args)
    (session : Session) (p : string) (e : exc) :
  stdin_json w = Ok input_data -> read_args input_data = Ok a ->
  fst (authenticate_aci w (arg_apic_url a) (arg_username a) (arg_password a)
         (arg_timeout a) initial) = Ok session ->
  arg_api_path a = JString p ->
  (forall st,
      fst (query_aci_api w session (arg_apic_url a) (JString p)
             (arg_query_params a) st) = Raise e) ->
  main w
  = mkRun [json_dumps (JObject (error_output w (main_error_message e)))] 1
          [login_request (arg_apic_url a) (arg_username a) (arg_password a);
           query_request session (arg_apic_url a) p (arg_query_params a)].
Proof.
  intros Hin Hargs Hauth Hpath Hq.
  rewrite (main_fetch_raises w e
             (mkState [login_request (arg_apic_url a) (arg_username a)
                         (arg_password a);
                       query_request session (arg_apic_url a) p
                         (arg_query_params a)] [])); [reflexivity|].
  rewrite (main_fetch_after_login w _ _ _ Hin Hargs Hauth), Hpath.
  now rewrite (query_aci_api_pair w session _ p _ _ (Raise e)
                 (authenticate_aci_returned _ _ _ _ _ _ _ Hauth) (Hq _)).
Qed.

(** X8.  After a successful login, a query answered with a status from
    400 to 599 gives the query-failed message with the text of the HTTP
    error and exit code 1. *)
Theorem X8_query_error_status (w : world) (input_data : json) (a : args)
    (session : Session) (p : string) (resp : response) :
  stdin_json w = Ok input_data ->
  read_args input_data = Ok a ->
  fst (authenticate_aci w (arg_apic_url a) (arg_username a) (arg_password a)
         (arg_timeout a) initial) = Ok session ->
  arg_api_path a = JString p ->
  transport w (query_request session (arg_apic_url a) p (arg_query_params a))
  = Ok resp ->
  status_ok resp = false ->
  main w
  = mkRun [json_dumps
             (JObject (error_output w ("API query failed: " ++ http_error resp)))]
          1
          [login_request (arg_apic_url a) (arg_username a) (arg_password a);
           query_request session (arg_apic_url a) p (arg_query_params a)].
Proof.
  intros Hin Hargs Hauth Hpath Htr Hst.
  apply (main_query_fails w _ _ _ _
           (mkExc ACIQueryError ("API query failed: " ++ http_error resp))
           Hin Hargs Hauth Hpath).
  intros st. now apply query_aci_api_bad_status.
Qed.

Lemma X8_witness :
  main query_404_world
  = mkRun [json_dumps
             (JObject (error_output query_404_world
                ("API query failed: " ++ "404 Client Error: Not Found")))]
          1
          [login_request (arg_apic_url sample_args) (arg_username sample_args)
             (arg_password sample_args);
           query_request (logged_in 5 (JString "T0K"))
             (arg_apic_url sample_args) "node/class/fvTenant.json"
             (arg_query_params sample_args)].
Proof.
  apply (X8_query_error_status query_404_world sample_input sample_args
           (logged_in 5 (JString "T0K")) "node/class/fvTenant.json"
           (mkResponse 404 "404 Client Error: Not Found" (Ok (JObject []))));
    reflexivity.
Defined.

(** X9.  After a successful login, when sending the query raises an
    exception of the library the run gives the query-failed message with
    the text of that exception and exit code 1. *)
Theorem X9_query_cannot_be_sent (w : world) (input_data : json) (a : args)
    (session : Session) (p : string) (e : exc) :
  stdin_json w = Ok input_data ->
  read_args input_data = Ok a ->
  fst (authenticate_aci w (arg_apic_url a) (arg_username a) (arg_password a)
         (arg_timeout a) initial) = Ok session ->
  arg_api_path a = JString p ->
  transport w (query_request session (arg_apic_url a) p (arg_query_params a))
  = Raise e ->
  isinstance e RequestException = true ->
  main w
  = mkRun [json_dumps
             (JObject (error_output w ("API query failed: " ++ exc_str e)))]
          1
          [login_request (arg_apic_url a) (arg_username a) (arg_password a);
           query_request session (arg_apic_url a) p (arg_query_params a)].
Proof.
  intros Hin Hargs Hauth Hpath Htr He.
  apply (main_query_fails w _ _ _ _
           (mkExc ACIQueryError ("API query failed: " ++ exc_str e))
           Hin Hargs Hauth Hpath).
  intros st. rewrite (query_aci_api_send_fails w _ _ _ _ e st Htr).
  now rewrite He.
Qed.

Lemma X9_witness :
  main query_down_world
  = mkRun [json_dumps
             (JObject (error_output query_down_world
                ("API query failed: " ++ "Read timed out.")))]
          1
          [login_request (arg_apic_url sample_args) (arg_username sample_args)
             (arg_password sample_args);
           query_request (logged_in 5 (JString "T0K"))
             (arg_apic_url sample_args) "node/class/fvTenant.json"
             (arg_query_params sample_args)].
Proof.
  apply (X9_query_cannot_be_sent query_down_world sample_input sample_args
           (logged_in 5 (JString "T0K")) "node/class/fvTenant.json"
           (mkExc ReadTimeout "Read timed out."));
    reflexivity.
Defined.

(** X10.  An [api_path] that is present but not a string is found out
    only after the login: the login is sent and succeeds, then the run
    fails with an unexpected error that names the type, and no query is
    sent. *)
Theorem X10_api_path_not_a_string (w : world) (input_data : json) (a : args)
    (session : Session) :
  stdin_json w = Ok input_data ->
  read_args input_data = Ok a ->
  fst (authenticate_aci w (arg_apic_url a) (arg_username a) (arg_password a)
         (arg_timeout a) initial) = Ok session ->
  (forall p, arg_api_path a <> JString p) ->
  main w
  = mkRun [json_dumps
             (JObject (error_output w
                ("Unexpected error: '" ++ type_name (arg_api_path a)
                   ++ "' object has no attribute 'startswith'")))]
          1
          [login_request (arg_apic_url a) (arg_username a) (arg_password a)].
Proof.
  intros Hin Hargs Hauth Hn.
  rewrite (main_fetch_raises w (no_attribute (arg_api_path a) "startswith")
             (mkState [login_request (arg_apic_url a) (arg_username a)
                         (arg_password a)] [])); [reflexivity|].
  rewrite (main_fetch_after_login w _ _ _ Hin Hargs Hauth).
  now apply query_aci_api_not_str.
Qed.

Lemma X10_witness :
  main numeric_path_world
  = mkRun [json_dumps
             (JObject (error_output numeric_path_world
                ("Unexpected error: '" ++ type_name (JInt 7)
                   ++ "' object has no attribute 'startswith'")))]
          1
          [login_request "https://apic.example.net" (JString "admin")
             (JString "secret")].
Proof.
  apply (X10_api_path_not_a_string numeric_path_world
           (input_with (JString "https://apic.example.net") (JInt 7) (JInt 5))
           (mkArgs "https://apic.example.net" (JString "admin")
              (JString "secret") (JInt 7) 5 (JObject []))
           (logged_in 5 (JString "T0K")));
    try reflexivity.
  discriminate.
Defined.

(** X11.  A whole successful fetch: for an input object with the four
    required keys, [apic_url] and [api_path] strings, a [timeout] that
    converts, a login answer with a truthy token and a query answer with a
    JSON body, the two stages make exactly two calls, the login and then
    the query, and hand back the body of the query as it is.  The base URL
    of both calls is [apic_url] without its trailing slashes, the query
    carries the cookie with the token and the [query_params] of the input
    (an empty object when there are none). *)
Theorem X11_successful_fetch (w : world) (members : list (string * json))
    (url path : string) (username password : json) (timeout : Z)
    (resp : response) (login_data token : json) (resp' : response)
    (result : json) :
  stdin_json w = Ok (JObject members) ->
  dict_get "apic_url" members = Some (JString url) ->
  dict_get "username" members = Some username ->
  dict_get "password" members = Some password ->
  dict_get "api_path" members = Some (JString path) ->
  py_int (timeout_of members) = Ok timeout ->
  transport w (login_request (rstrip_slash url) username password) = Ok resp ->
  status_ok resp = true ->
  body_json resp = Ok login_data ->
  login_token login_data = Some token ->
  truthy token = true ->
  transport w (query_request (logged_in timeout token) (rstrip_slash url) path
                 (query_params_of members)) = Ok resp' ->
  status_ok resp' = true ->
  body_json resp' = Ok result ->
  main_fetch w initial
  = (Ok result,
     mkState [login_request (rstrip_slash url) username password;
              query_request (logged_in timeout token) (rstrip_slash url) path
                (query_params_of members)] []).
Proof.
  intros Hin H1 H2 H3 H4 Ht Htr Hst Hbody Htok Htrue Htr' Hst' Hbody'.
  pose proof (read_args_object members _ _ _ _ H1 H2 H3 H4) as Hr.
  simpl in Hr. rewrite Ht in Hr. simpl in Hr.
  pose proof (authenticate_aci_token w _ _ _ timeout resp login_data Htr Hst
                Hbody token initial Htok) as Hauth.
  rewrite Htrue in Hauth.
  rewrite (main_fetch_after_login w _ _ _ Hin Hr Hauth).
  cbn [arg_apic_url arg_username arg_password arg_api_path arg_timeout
       arg_query_params].
  now rewrite (query_aci_api_pair w _ _ path _ _ (Ok result)
                 (authenticate_aci_returned _ _ _ _ _ _ _ Hauth)
                 (query_aci_api_answer w _ _ _ _ resp' _ _ Htr' Hst' Hbody')).
Qed.

Lemma X11_witness :
  main_fetch sample_world initial
  = (Ok sample_result,
     mkState [login_request (rstrip_slash "https://apic.example.net/")
                (JString "admin") (JString "secret");
              query_request (logged_in 5 (JString "T0K"))
                (rstrip_slash "https://apic.example.net/")
                "node/class/fvTenant.json" (JObject [])] []).
Proof.
  apply (X11_successful_fetch sample_world
           [("apic_url", JString "https://apic.example.net/");
            ("username", JString "admin"); ("password", JString "secret");
            ("api_path", JString "node/class/fvTenant.json");
            ("timeout", JString "5")]
           "https://apic.example.net/" "node/class/fvTenant.json"
           (JString "admin") (JString "secret") 5
           (ok_response (login_body (JString "T0K")))
           (login_body (JString "T0K")) (JString "T0K")
           (ok_response sample_result) sample_result);
    reflexivity.
Defined.

(** ** What the input becomes *)

(** X12.  An input object with the four required keys, a string
    [apic_url] and neither [timeout] nor [query_params] is accepted with
    timeout 30 and empty query parameters; the other three values are
    taken as they are. *)
Theorem X12_defaults (members : list (string * json)) (url : string)
    (username password api_path : json) :
  dict_get "apic_url" members = Some (JString url) ->
  dict_get "username" members = Some username ->
  dict_get "password" members = Some password ->
  dict_get "api_path" members = Some api_path ->
  dict_get "timeout" members = None ->
  dict_get "query_params" members = None ->
  read_args (JObject members)
  = Ok (mkArgs (rstrip_slash url) username password api_path 30 (JObject [])).
Proof.
  intros H1 H2 H3 H4 H5 H6.
  rewrite (read_args_object members _ _ _ _ H1 H2 H3 H4).
  unfold timeout_of, query_params_of. rewrite H5, H6. reflexivity.
Qed.

Lemma X12_witness :
  read_args minimal_input
  = Ok (mkArgs (rstrip_slash "https://apic.example.net//") (JString "admin")
          (JString "secret") (JString "/api/class/fvTenant.json") 30
          (JObject [])).
Proof.
  apply (X12_defaults
           [("apic_url", JString "https://apic.example.net//");
            ("username", JString "admin"); ("password", JString "secret");
            ("api_path", JString "/api/class/fvTenant.json")]
           "https://apic.example.net//" (JString "admin") (JString "secret")
           (JString "/api/class/fvTenant.json"));
    reflexivity.
Defined.

Lemma rstrip_slash_no_trailing_slash (s : string) :
  ends_with_slash (rstrip_slash s) = false.
Proof.
  induction s as [|c rest IH]; [reflexivity|].
  simpl. destruct (rstrip_slash rest) as [|c' r'] eqn:E.
  - destruct (Ascii.eqb c "/") eqn:Ec; simpl; [reflexivity | exact Ec].
  - exact IH.
Qed.

Lemma rstrip_slash_drops_slashes (s : string) :
  exists n, s = rstrip_slash s ++ slashes n.
Proof.
  induction s as [|c rest (n & IH)]; [now exists 0%nat|].
  simpl. destruct (rstrip_slash rest) as [|c' r'] eqn:E.
  - simpl in IH. destruct (Ascii.eqb_spec c "/") as [->|Hc].
    + exists (S n). simpl. now rewrite <- IH.
    + exists n. simpl. now rewrite <- IH.
  - exists n. simpl. simpl in IH. now rewrite <- IH.
Qed.

Lemma read_args_apic_url (input_data : json) (a : args) :
  read_args input_data = Ok a ->
  exists url,
    py_getitem input_data "apic_url" = Ok (JString url)
    /\ arg_apic_url a = rstrip_slash url.
Proof.
  unfold read_args, rbind.
  destruct (check_required input_data required_params); [|discriminate].
  destruct (py_getitem input_data "apic_url") as [v|]; [|discriminate].
  destruct (py_rstrip v) as [url|] eqn:E; [|discriminate].
  destruct (py_getitem input_data "username"); [|discriminate].
  destruct (py_getitem input_data "password"); [|discriminate].
  destruct (py_getitem input_data "api_path"); [|discriminate].
  destruct (py_get input_data "timeout" (JInt 30)); [|discriminate].
  destruct (py_int _); [|discriminate].
  destruct (py_get input_data "query_params" (JObject [])); [|discriminate].
  intros [= <-]. simpl.
  destruct v; try discriminate. injection E as <-. eauto.
Qed.

(** X13.  The base URL that an accepted input hands to both stages never
    ends with a slash, and it is the [apic_url] of the input less a run of
    slashes at its end. *)
Theorem X13_base_url_without_trailing_slash (input_data : json) (a : args) :
  read_args input_data = Ok a ->
  ends_with_slash (arg_apic_url a) = false
  /\ exists n,
      py_getitem input_data "apic_url"
      = Ok (JString (arg_apic_url a ++ slashes n)).
Proof.
  intros H. destruct (read_args_apic_url _ _ H) as (url & Hu & ->).
  split; [apply rstrip_slash_no_trailing_slash|].
  destruct (rstrip_slash_drops_slashes url) as (n & Hn).
  exists n. now rewrite <- Hn.
Qed.

Lemma X13_witness :
  ends_with_slash (arg_apic_url sample_args) = false
  /\ exists n,
      py_getitem sample_input "apic_url"
      = Ok (JString (arg_apic_url sample_args ++ slashes n)).
Proof.
  apply (X13_base_url_without_trailing_slash sample_input sample_args).
  reflexivity.
Defined.

(** ** The path of the query *)

Lemma normalize_api_path_prefix (p : string) :
  startswith (normalize_api_path p) "/api" = true.
Proof.
  unfold normalize_api_path.
  destruct (startswith p "/api") eqn:E; simpl; [assumption|].
  destruct (startswith p "/"); destruct p; reflexivity.
Qed.

(** X14.  Normalizing a path twice is normalizing it once. *)
Theorem X14_normalize_api_path_idempotent (p : string) :
  normalize_api_path (normalize_api_path p) = normalize_api_path p.
Proof.
  unfold normalize_api_path at 1.
  now rewrite normalize_api_path_prefix.
Qed.

(** ** What the login returns *)

Lemma returns_ret {A} (P : A -> Prop) (a : A) : P a -> returns P (ret a).
Proof. intros H st a' st' [= <- _]. exact H. Qed.

Lemma returns_raise {A} (P : A -> Prop) (e : exc) : returns P (@raise A e).
Proof. intros st a st' [=]. Qed.

Lemma returns_bind {A B} (P : B -> Prop) (m : M A) (k : A -> M B) :
  (forall a, returns P (k a)) -> returns P (bind m k).
Proof.
  intros Hk st b st'. unfold bind.
  destruct (m st) as [[a|e] st1]; [apply Hk | discriminate].
Qed.

Lemma returns_try {A} (P : A -> Prop) (body : M A)
    (handler : exc -> option (M A)) :
  returns P body -> (forall e h, handler e = Some h -> returns P h) ->
  returns P (try_except body handler).
Proof.
  intros Hb Hh st a st'. unfold try_except.
  destruct (body st) as [[a'|e] st1] eqn:E.
  - intros [= <- <-]. exact (Hb _ _ _ E).
  - destruct (handler e) as [h|] eqn:Eh; [|discriminate].
    apply (Hh _ _ Eh).
Qed.

(** Every session the login returns is the one for a truthy token. *)
Lemma authenticate_aci_returns (w : world) (apic_url : string)
    (username password : json) (timeout : Z) :
  returns (fun session =>
             exists token, truthy token = true
                           /\ session = logged_in timeout token)
          (authenticate_aci w apic_url username password timeout).
Proof.
  unfold authenticate_aci. apply returns_bind. intro login_url.
  apply returns_try.
  - repeat (apply returns_bind; intro).
    match goal with |- returns _ (if ?b then _ else _) => destruct b end;
      [|apply returns_raise].
    repeat (apply returns_bind; intro).
    match goal with
    | |- returns _ (if truthy ?t then _ else _) => destruct (truthy t) eqn:E
    end; [|apply returns_raise].
    apply returns_ret. eexists. split; [exact E | reflexivity].
  - intros e h.
    repeat match goal with
           | |- (if ?b then _ else _) = Some _ -> _ => destruct b
           end;
      intros [= <-]; apply returns_raise.
Qed.

(** ** The calls of a run *)

Lemma main_calls_shape (w : world) :
  calls (main w) = []
  \/ exists input_data a,
      stdin_json w = Ok input_data /\ read_args input_data = Ok a
      /\ (calls (main w)
          = [login_request (arg_apic_url a) (arg_username a) (arg_password a)]
          \/ exists token p,
              truthy token = true /\ arg_api_path a = JString p
              /\ calls (main w)
                 = [login_request (arg_apic_url a) (arg_username a)
                      (arg_password a);
                    query_request (logged_in (arg_timeout a) token)
                      (arg_apic_url a) p (arg_query_params a)]).
Proof.
  rewrite main_calls.
  destruct (stdin_json w) as [input_data|e] eqn:Hin;
    [|left; unfold main_fetch, bind, lift; now rewrite Hin].
  destruct (read_args input_data) as [a|e] eqn:Hargs;
    [|left; now rewrite (main_fetch_bad_args w _ _ Hin Hargs)].
  rewrite (main_fetch_args w _ _ Hin Hargs).
  destruct (url_error w (arg_apic_url a)) as [text|] eqn:Hu;
    [left; now rewrite (authenticate_aci_refused _ _ _ _ _ _ _ Hu)|].
  right. exists input_data, a.
  split; [reflexivity || assumption|]. split; [reflexivity || assumption|].
  pose proof (authenticate_aci_state w (arg_apic_url a) (arg_username a)
                (arg_password a) (arg_timeout a) initial Hu) as Hs.
  destruct (authenticate_aci _ _ _ _ _ _) as [[session|e] st] eqn:Ea;
    simpl in Hs; subst st; [|left; reflexivity].
  destruct (authenticate_aci_returns _ _ _ _ _ _ _ _ Ea) as (token & Ht & ->).
  rewrite (query_aci_api_state _ _ _ _ _ _ Hu).
  destruct (arg_api_path a) as [| | | p | |] eqn:Ep; try (left; reflexivity).
  right. exists token, p. repeat split; assumption.
Qed.

(** X15.  A run makes no call, or the login alone, or the login followed
    by one query.  The query is only sent with the session of a login that
    gave a truthy token, to the same base URL as the login, and only for
    an [api_path] that is a string. *)
Theorem X15_at_most_login_then_query (w : world) :
  calls (main w) = []
  \/ exists input_data a,
      stdin_json w = Ok input_data /\ read_args input_data = Ok a
      /\ (calls (main w)
          = [login_request (arg_apic_url a) (arg_username a) (arg_password a)]
          \/ exists token p,
              truthy token = true /\ arg_api_path a = JString p
              /\ calls (main w)
                 = [login_request (arg_apic_url a) (arg_username a)
                      (arg_password a);
                    query_request (logged_in (arg_timeout a) token)
                      (arg_apic_url a) p (arg_query_params a)]).
Proof. exact (main_calls_shape w). Qed.


(** With a CA bundle in the environment the two calls of the sample run
    are verified, the [verify] attribute of the session notwithstanding. *)
Lemma sample_calls_with_ca_bundle :
  map req_verify (calls (main ca_bundle_world)) = [false; false]
  /\ map (certificates_verified ca_bundle_world) (calls (main ca_bundle_world))
     = [true; true]
  /\ map (certificates_verified sample_world) (calls (main sample_world))
     = [false; false].
Proof. repeat split; reflexivity. Qed.

(** X17.  With a login answer that passes the status check and has a JSON
    body, the login returns a session exactly when the body holds a truthy
    token at the path, and the session is then the one with verification
    off, the timeout as an attribute and the cookie made of that token. *)
Theorem X17_session_iff_truthy_token (w : world) (apic_url : string)
    (username password : json) (timeout : Z) (resp : response)
    (login_data : json) (session : Session) :
  transport w (login_request apic_url username password) = Ok resp ->
  status_ok resp = true ->
  body_json resp = Ok login_data ->
  fst (authenticate_aci w apic_url username password timeout initial)
  = Ok session
  <-> exists token,
        login_token login_data = Some token /\ truthy token = true
        /\ session
           = mkSession false (Some timeout)
               [("Cookie", "APIC-cookie=" ++ py_str token)].
Proof.
  intros Htr Hst Hbody. split.
  - intros H. destruct (login_token login_data) as [token|] eqn:Htok.
    + rewrite (authenticate_aci_token w _ _ _ timeout resp login_data Htr Hst
                 Hbody token initial Htok) in H.
      destruct (truthy token) eqn:Ht; [|discriminate].
      injection H as <-. exists token.
      repeat split; reflexivity || assumption.
    + destruct (authenticate_aci_no_token w _ _ _ timeout resp login_data Htr
                  Hst Hbody initial Htok) as (e & He).
      congruence.
  - intros (token & Htok & Ht & ->).
    rewrite (authenticate_aci_token w _ _ _ timeout resp login_data Htr Hst
               Hbody token initial Htok), Ht.
    reflexivity.
Qed.

Lemma X17_witness :
  fst (authenticate_aci sample_world "https://apic.example.net"
         (JString "admin") (JString "secret") 5 initial)
  = Ok (logged_in 5 (JString "T0K"))
  <-> exists token,
        login_token (login_body (JString "T0K")) = Some token
        /\ truthy token = true
        /\ logged_in 5 (JString "T0K")
           = mkSession false (Some 5)
               [("Cookie", "APIC-cookie=" ++ py_str token)].
Proof.
  apply (X17_session_iff_truthy_token sample_world "https://apic.example.net"
           (JString "admin") (JString "secret") 5
           (ok_response (login_body (JString "T0K")))
           (login_body (JString "T0K")) (logged_in 5 (JString "T0K")));
    reflexivity.
Defined.

(** X18.  Whatever the network does, each stage prints nothing.  When
    [urljoin] accepts the base, the login makes exactly one call, and the
    query makes exactly one call when [api_path] is a string and none
    otherwise.  When [urljoin] refuses the base, the login makes no call,
    and neither does the query. *)
Theorem X18_one_call_per_stage (w : world) (session : Session)
    (apic_url : string) (username password api_path params : json)
    (timeout : Z) (st : state) :
  snd (authenticate_aci w apic_url username password timeout st)
  = match url_error w apic_url with
    | None =>
        mkState (net_calls st ++ [login_request apic_url username password])
                (printed st)
    | Some _ => st
    end
  /\ snd (query_aci_api w session apic_url api_path params st)
     = match api_path, url_error w apic_url with
       | JString p, None =>
           mkState (net_calls st ++ [query_request session apic_url p params])
                   (printed st)
       | _, _ => st
       end.
Proof.
  destruct (url_error w apic_url) as [text|] eqn:Hu.
  - split; [now rewrite (authenticate_aci_refused _ _ _ _ _ _ _ Hu)|].
    destruct api_path; try reflexivity.
    now rewrite (query_aci_api_refused _ _ _ _ _ _ _ Hu).
  - split; [now apply authenticate_aci_state|].
    rewrite (query_aci_api_state _ _ _ _ _ _ Hu).
    now destruct api_path.
Qed.

(** X21.  A base URL that [urljoin] refuses ends the run before any call:
    the error of [urljoin] is raised outside the [try] of the login, so
    the run reports it as an unexpected error, with exit code 1. *)
Theorem X21_base_url_refused (w : world) (input_data : json) (a : args)
    (text : string) :
  stdin_json w = Ok input_data ->
  read_args input_data = Ok a ->
  url_error w (arg_apic_url a) = Some text ->
  main w
  = mkRun [json_dumps (JObject (error_output w ("Unexpected error: " ++ text)))]
          1 [].
Proof.
  intros Hin Hargs Hu.
  rewrite (main_fetch_raises w (mkExc ValueError text) initial);
    [reflexivity|].
  rewrite (main_fetch_args w _ _ Hin Hargs).
  now rewrite (authenticate_aci_refused _ _ _ _ _ _ _ Hu).
Qed.

Lemma X21_witness :
  main refusing_world
  = mkRun [json_dumps
             (JObject (error_output refusing_world
                ("Unexpected error: " ++ "Invalid IPv6 URL")))]
          1 [].
Proof.
  apply (X21_base_url_refused refusing_world bracket_input bracket_args
           "Invalid IPv6 URL");
    reflexivity.
Defined.

(** ** The envelope *)

Lemma success_output_flat (w : world) (result : json)
    (output : list (string * json)) :
  success_output w result = Ok output ->
  flat output
  /\ dict_get "timestamp" output = Some (JString (string_of_Z (now w)))
  /\ exists extra,
      map fst output = (["json_data"; "status"; "timestamp"] ++ extra)%list
      /\ In extra [[]; ["record_count"]; ["total_count"];
                   ["record_count"; "total_count"]].
Proof.
  unfold success_output, rbind, flat.
  destruct (py_in "imdata" result) as [[|]|]; try discriminate;
    try (destruct (py_getitem result "imdata") as [imdata|]; try discriminate;
         destruct (py_len imdata); try discriminate);
    (destruct (py_in "totalCount" result) as [[|]|]; try discriminate);
    try (destruct (py_getitem result "totalCount"); try discriminate);
    intros [= <-];
    (split; [repeat constructor; simpl; eauto|]);
    (split; [reflexivity|]);
    eexists; (split; [reflexivity|]); simpl; auto.
Qed.

(** X19.  Every value of the printed object is a string, its [timestamp]
    is the clock reading, and its keys are [json_data], [status],
    [error_message], [timestamp] with exit code 1, or [json_data],
    [status], [timestamp] followed by [record_count] and [total_count],
    each optional, with exit code 0. *)
Theorem X19_envelope_is_flat (w : world) :
  exists envelope,
    stdout (main w) = [json_dumps (JObject envelope)]
    /\ flat envelope
    /\ dict_get "timestamp" envelope = Some (JString (string_of_Z (now w)))
    /\ ((exit_code (main w) = 1
         /\ map fst envelope
            = ["json_data"; "status"; "error_message"; "timestamp"])
        \/ (exit_code (main w) = 0
            /\ exists extra,
                map fst envelope
                = (["json_data"; "status"; "timestamp"] ++ extra)%list
                /\ In extra [[]; ["record_count"]; ["total_count"];
                             ["record_count"; "total_count"]])).
Proof.
  rewrite main_after_fetch.
  assert (Herr : forall msg calls_made,
             exists envelope,
               stdout (mkRun [json_dumps (JObject (error_output w msg))] 1
                         calls_made)
               = [json_dumps (JObject envelope)]
               /\ flat envelope
               /\ dict_get "timestamp" envelope
                  = Some (JString (string_of_Z (now w)))
               /\ ((exit_code (mkRun [json_dumps (JObject (error_output w msg))]
                                 1 calls_made) = 1
                    /\ map fst envelope
                       = ["json_data"; "status"; "error_message"; "timestamp"])
                   \/ (exit_code (mkRun [json_dumps
                                           (JObject (error_output w msg))]
                                    1 calls_made) = 0
                       /\ exists extra,
                           map fst envelope
                           = (["json_data"; "status"; "timestamp"] ++ extra)%list
                           /\ In extra [[]; ["record_count"]; ["total_count"];
                                        ["record_count"; "total_count"]]))).
  { intros msg calls_made. exists (error_output w msg).
    split; [reflexivity|].
    split; [unfold flat; repeat constructor; simpl; eauto|].
    split; [reflexivity|]. left. split; reflexivity. }
  destruct (main_fetch w initial) as [[result|e] st]; [|apply Herr].
  destruct (success_output w result) as [output|e] eqn:Es; [|apply Herr].
  destruct (success_output_flat w _ _ Es) as (Hf & Ht & Hk).
  exists output. split; [reflexivity|]. split; [assumption|].
  split; [assumption|]. right. split; [reflexivity | assumption].
Qed.

(** ** Where the message for invalid input comes from *)

Lemma py_in_raises (k : string) (v : json) (e : exc) :
  py_in k v = Raise e -> isinstance e JSONDecodeError = false.
Proof. destruct v; simpl; intros [= <-]; reflexivity. Qed.

Lemma py_getitem_raises (v : json) (k : string) (e : exc) :
  py_getitem v k = Raise e -> isinstance e JSONDecodeError = false.
Proof.
  destruct v; simpl; try (intros [= <-]; reflexivity).
  destruct (dict_get k members); intros [= <-]; reflexivity.
Qed.

Lemma py_len_raises (v : json) (e : exc) :
  py_len v = Raise e -> isinstance e JSONDecodeError = false.
Proof. destruct v; simpl; intros [= <-]; reflexivity. Qed.

Lemma py_get_raises (v : json) (k : string) (d : json) (e : exc) :
  py_get v k d = Raise e -> isinstance e JSONDecodeError = false.
Proof. destruct v; simpl; intros [= <-]; reflexivity. Qed.

Lemma py_rstrip_raises (v : json) (e : exc) :
  py_rstrip v = Raise e -> isinstance e JSONDecodeError = false.
Proof. destruct v; simpl; intros [= <-]; reflexivity. Qed.

Lemma py_int_not_decode_error (v : json) (e : exc) :
  py_int v = Raise e -> isinstance e JSONDecodeError = false.
Proof.
  destruct v as [| b | n | s | items | members]; simpl;
    try (destruct (int_of_str s)); intros H; try discriminate;
    injection H as <-; reflexivity.
Qed.

Lemma check_required_raises (v : json) (params : list string) (e : exc) :
  check_required v params = Raise e -> isinstance e JSONDecodeError = false.
Proof.
  induction params as [|p rest IH]; simpl; [discriminate|].
  unfold rbind. destruct (py_in p v) as [[|]|] eqn:E.
  - exact IH.
  - intros [= <-]. reflexivity.
  - intros [= <-]. exact (py_in_raises _ _ _ E).
Qed.

Create HintDb py_raises.
#[local] Hint Resolve py_in_raises py_getitem_raises py_len_raises
  py_get_raises py_rstrip_raises py_int_not_decode_error check_required_raises
  : py_raises.

(** Takes apart a chain of steps that ended in an exception. *)
Ltac raise_cases :=
  repeat match goal with
         | H : Ok _ = Raise _ |- _ => discriminate H
         | H : Raise _ = Raise _ |- _ => injection H as H; subst
         | H : match ?r with Ok _ => _ | Raise _ => _ end = Raise _ |- _ =>
             destruct r eqn:?
         | H : (if ?b then _ else _) = Raise _ |- _ => destruct b
         end;
  eauto with py_raises.

Lemma read_args_raises (v : json) (e : exc) :
  read_args v = Raise e -> isinstance e JSONDecodeError = false.
Proof. unfold read_args, rbind. intros H. raise_cases. Qed.

Lemma success_output_raises (w : world) (result : json) (e : exc) :
  success_output w result = Raise e -> isinstance e JSONDecodeError = false.
Proof. unfold success_output, rbind. intros H. raise_cases. Qed.

(** A stage turns every [JSONDecodeError] into its own error. *)
Lemma stage_try_raises {A} (body : M A) (p1 p2 : string) (st : state)
    (e : exc) (st' : state) :
  try_except body
    (fun e =>
       if isinstance e RequestException then
         Some (raise (mkExc ACIQueryError (p1 ++ exc_str e)))
       else if isinstance e JSONDecodeError then
         Some (raise (mkExc ACIQueryError (p2 ++ exc_str e)))
       else None) st
  = (Raise e, st') ->
  isinstance e JSONDecodeError = false.
Proof.
  unfold try_except. destruct (body st) as [[a|e0] st0]; [discriminate|].
  destruct (isinstance e0 RequestException); [intros [= <- _]; reflexivity|].
  destruct (isinstance e0 JSONDecodeError) eqn:E; intros [= <- _];
    [reflexivity | exact E].
Qed.

Lemma main_fetch_not_decode_error (w : world) (v : json) (e : exc)
    (st : state) :
  stdin_json w = Ok v ->
  main_fetch w initial = (Raise e, st) ->
  isinstance e JSONDecodeError = false.
Proof.
  intros Hin. unfold main_fetch, bind, lift. rewrite Hin.
  destruct (read_args v) as [a|e0] eqn:Ha;
    [|intros [= <- _]; exact (read_args_raises _ _ Ha)].
  destruct (authenticate_aci _ _ _ _ _ _) as [[session|e0] st0] eqn:Ea.
  - unfold query_aci_api. destruct (arg_api_path a);
      try (intros [= <- _]; reflexivity).
    unfold py_urljoin. destruct (url_error w (arg_apic_url a)).
    + rewrite bind_lift_raise. intros [= <- _]. reflexivity.
    + rewrite bind_lift_ok. apply stage_try_raises.
  - intros [= <- _]. unfold authenticate_aci, py_urljoin in Ea.
    destruct (url_error w (arg_apic_url a)).
    + rewrite bind_lift_raise in Ea. injection Ea as <- _. reflexivity.
    + rewrite bind_lift_ok in Ea. exact (stage_try_raises _ _ _ _ _ _ Ea).
Qed.

(** X20.  When standard input parsed, no failure of the run is reported as
    invalid input: the message is the text of the script's own error, or
    the text of the exception after the prefix for unexpected errors. *)
Theorem X20_invalid_input_message_only_for_stdin (w : world) (v : json)
    (e : exc) (st : state) :
  stdin_json w = Ok v ->
  main_try w initial = (Raise e, st) ->
  isinstance e JSONDecodeError = false
  /\ main_error_message e
     = if isinstance e ACIQueryError then exc_str e
       else "Unexpected error: " ++ exc_str e.
Proof.
  intros Hin H.
  assert (He : isinstance e JSONDecodeError = false).
  { revert H. unfold main_try, bind, lift, print.
    destruct (main_fetch w initial) as [[result|e0] st0] eqn:Ef.
    - destruct (success_output w result) as [output|e0] eqn:Es;
        [discriminate|].
      intros [= <- _]. exact (success_output_raises _ _ _ Es).
    - intros [= <- _]. exact (main_fetch_not_decode_error _ _ _ _ Hin Ef). }
  split; [exact He|]. unfold main_error_message. now rewrite He.
Qed.

Lemma X20_witness :
  isinstance (mkExc ACIQueryError
                ("Authentication request failed: "
                   ++ "401 Client Error: Unauthorized")) JSONDecodeError
  = false
  /\ main_error_message
       (mkExc ACIQueryError
          ("Authentication request failed: "
             ++ "401 Client Error: Unauthorized"))
     = "Authentication request failed: 401 Client Error: Unauthorized".
Proof.
  apply (X20_invalid_input_message_only_for_stdin login_401_world sample_input
           (mkExc ACIQueryError
              ("Authentication request failed: "
                 ++ "401 Client Error: Unauthorized"))
           (mkState [login_request "https://apic.example.net"
                       (JString "admin") (JString "secret")] []));
    reflexivity.
Defined.
